(** * Rainbow general fit: bolometric and temperature strategies

    A shallow embedding of the generic Rainbow fit of light-curve-python:
    [features/rainbow/temperature.py] and, from [.ipynb_checkpoints],
    [bolometric-checkpoint.py] and [general-checkpoint.py].

    Python floats are read as real numbers, so that the arithmetic is exact:
    rounding, overflow, infinities and NaN are outside the model (the one
    NaN that matters, the median of no value, is [None]), and a division by
    zero, which numpy answers with an infinity, is not to be read off the
    model: the statements about an expression with a division take a
    nonzero divisor. Where rounding decides a statement, the module
    [binary64] evaluates the code on doubles. Numpy arrays are lists, Python
    dictionaries with string keys are finite maps, and a Python exception is
    [None] in the option monad. *)

From Stdlib Require Import Reals Lra Lia Psatz PrimFloat.
From stdpp Require Import base option list strings gmap.

(** * The numpy operations used by the sources *)

Module np.

#[local] Open Scope R_scope.

#[global] Instance Rle_decision (x y : R) : Decision (x <= y) := Rle_dec x y.
#[global] Instance Rlt_decision (x y : R) : Decision (x < y) := Rlt_dec x y.
#[global] Instance Req_decision : EqDecision R := Req_dec_T.

(** [a <= b], [a < b], [a > b], [a >= b] on floats, as booleans. *)
Definition le (x y : R) : bool := bool_decide (x <= y).
Definition lt (x y : R) : bool := bool_decide (x < y).
Definition gt (x y : R) : bool := lt y x.
Definition ge (x y : R) : bool := le y x.

(** [np.zeros_like(a)] *)
Definition zeros_like (a : list R) : list R := (λ _, 0) <$> a.

(** The elements of [a] under the true positions of [idx], in order. *)
Fixpoint select {A} (a : list A) (idx : list bool) : list A :=
  match a, idx with
  | x :: a', b :: idx' => if b then x :: select a' idx' else select a' idx'
  | _, _ => []
  end.

(** [a[idx]] for a boolean mask: numpy raises IndexError unless the mask
    has the length of the array. *)
Definition getmask {A} (a : list A) (idx : list bool) : option (list A) :=
  if decide (length idx = length a) then Some (select a idx) else None.

(** The true positions of [a] overwritten with the values [vs], consumed in
    order; [None] when [vs] runs short or is not used up. *)
Fixpoint put {A} (a : list A) (idx : list bool) (vs : list A) : option (list A) :=
  match a, idx with
  | x :: a', b :: idx' =>
      if b then
        match vs with
        | v :: vs' => (v ::.) <$> put a' idx' vs'
        | [] => None
        end
      else (x ::.) <$> put a' idx' vs
  | _, _ => match vs with [] => Some [] | _ => None end
  end.

(** [a[idx] = vs] for a boolean mask and an array of values: numpy raises
    unless the mask fits the array and [vs] has one value per true
    position. *)
Definition setmask {A} (a : list A) (idx : list bool) (vs : list A) : option (list A) :=
  if decide (length idx = length a) then put a idx vs else None.

(** [a[idx] = v] for a boolean mask and a scalar. *)
Definition setmask_scalar {A} (a : list A) (idx : list bool) (v : A) : option (list A) :=
  if decide (length idx = length a)
  then Some (zip_with (λ x (b : bool), if b then v else x) a idx)
  else None.

(** [np.max(a)], [np.min(a)]: ValueError on an empty array. *)
Definition max (a : list R) : option R :=
  match a with
  | [] => None
  | x :: a' => Some (foldl Rmax x a')
  end.

Definition min (a : list R) : option R :=
  match a with
  | [] => None
  | x :: a' => Some (foldl Rmin x a')
  end.

(** [np.ptp(a)]: the maximum minus the minimum. *)
Definition ptp (a : list R) : option R :=
  hi ← max a; lo ← min a; Some (hi - lo).

(** The first position of the value [v] in [a] (0 when there is none). *)
Fixpoint first_index (v : R) (a : list R) : nat :=
  match a with
  | [] => 0
  | x :: a' => if decide (x = v) then 0 else S (first_index v a')
  end.

(** [np.argmax(a)]: the first position of the maximum. *)
Definition argmax (a : list R) : option nat :=
  hi ← max a; Some (first_index hi a).

(** [np.sort(a)], by insertion. *)
Fixpoint insert_sorted (x : R) (a : list R) : list R :=
  match a with
  | [] => [x]
  | y :: a' => if le x y then x :: a else y :: insert_sorted x a'
  end.

Definition sort (a : list R) : list R := foldr insert_sorted [] a.

(** [np.median(a)]: the middle element of the sorted array, or the mean of
    the two middle ones. For an empty array numpy returns NaN, which is
    [None] here. *)
Definition median (a : list R) : option R :=
  let s := sort a in
  let n := length s in
  if decide (n = 0%nat) then None
  else if Nat.even n
       then x ← s !! (n / 2 - 1)%nat; y ← s !! (n / 2)%nat; Some ((x + y) / 2)
       else s !! (n / 2)%nat.

End np.

(** What an evaluation function returns: a scalar or an array. *)
Inductive value :=
  | scalar (x : R)
  | array (a : list R).

(** * temperature.py *)

Module temp.

#[local] Open Scope R_scope.

Definition constant (t : list R) (T : R) : R := T.

Definition constant_parameter_names : list string := ["T"%string].

Definition constant_initial_guesses (t m : list R) (band : list string) : gmap string R :=
  let initial := ∅ in
  let initial := <["T"%string := 8000]> initial in
  initial.

Definition constant_limits (t m : list R) (band : list string) : gmap string (R * R) :=
  let limits := ∅ in
  let limits := <["T"%string := (1e2, 2e6)]> limits in
  limits.

(** The expression of the unguarded branch of [logistic]. *)
Definition logistic_expr (Tmin Tmax k_sig dt : R) : R :=
  Tmin + (Tmax - Tmin) / (1 + exp (dt / k_sig)).

Definition logistic (t : list R) (t0 Tmin Tmax k_sig : R) : option (list R) :=
  let dt := (λ x, x - t0) <$> t in
  let result := np.zeros_like dt in
  let idx1 := (λ d, np.le d (-100 * k_sig)) <$> dt in
  let idx2 := (λ d, np.gt d (-100 * k_sig) && np.lt d (100 * k_sig)) <$> dt in
  let idx3 := (λ d, np.ge d (100 * k_sig)) <$> dt in
  result ← np.setmask_scalar result idx1 Tmin;
  dt2 ← np.getmask dt idx2;
  result ← np.setmask result idx2 (logistic_expr Tmin Tmax k_sig <$> dt2);
  result ← np.setmask_scalar result idx3 Tmax;
  Some result.

Definition logistic_parameter_names : list string :=
  ["reference_time"; "Tmin"; "Tmax"; "k_sig"]%string.

Definition logistic_initial_guesses (t m : list R) (band : list string) : gmap string R :=
  let initial := ∅ in
  let initial := <["Tmin"%string := 4000]> initial in
  let initial := <["Tmax"%string := 10000]> initial in
  let initial := <["k_sig"%string := 1]> initial in
  initial.

Definition logistic_limits (t m : list R) (band : list string) : option (gmap string (R * R)) :=
  t_amplitude ← np.ptp t;
  let limits := ∅ in
  let limits := <["Tmin"%string := (1e2, 1e6)]> limits in
  let limits := <["Tmax"%string := (1e2, 1e6)]> limits in
  let limits := <["k_sig"%string := (1e-4, 10 * t_amplitude)]> limits in
  Some limits.

(** One entry of [temperature_dict]: the evaluation function applied to
    [t] and the unpacked parameters (a call with the wrong number of
    arguments is a TypeError), the parameter names, the initial guesses and
    the limits. *)
Record entry := {
  func : list R → list R → option value;
  parameter_names : list string;
  initial_guesses : list R → list R → list string → option (gmap string R);
  limits : list R → list R → list string → option (gmap string (R * R));
}.

Definition constant_entry : entry := {|
  func t args := match args with [T] => Some (scalar (constant t T)) | _ => None end;
  parameter_names := constant_parameter_names;
  initial_guesses t m band := Some (constant_initial_guesses t m band);
  limits t m band := Some (constant_limits t m band);
|}.

Definition logistic_entry : entry := {|
  func t args :=
    match args with
    | [t0; Tmin; Tmax; k_sig] => array <$> logistic t t0 Tmin Tmax k_sig
    | _ => None
    end;
  parameter_names := logistic_parameter_names;
  initial_guesses t m band := Some (logistic_initial_guesses t m band);
  limits := logistic_limits;
|}.

Definition temperature_dict : gmap string entry :=
  <["logistic"%string := logistic_entry]> (<["constant"%string := constant_entry]> ∅).

End temp.

(** * temperature.py on doubles *)

(** [logistic] once more, on the doubles numpy computes with; the masks and
    the order of the assignments are the same. *)
Module binary64.

#[local] Open Scope float_scope.
#[local] Set Warnings "-inexact-float".

Section logistic.

(** [np.exp] on doubles (numpy is not among the sources). *)
Context (np_exp : float → float).

Definition logistic_expr (Tmin Tmax k_sig dt : float) : float :=
  Tmin + (Tmax - Tmin) / (1 + np_exp (dt / k_sig)).

Definition logistic (t : list float) (t0 Tmin Tmax k_sig : float) : option (list float) :=
  let dt := (λ x, x - t0) <$> t in
  let result := (λ _, 0) <$> dt in
  let idx1 := (λ d, d <=? -100 * k_sig) <$> dt in
  let idx2 := (λ d, (-100 * k_sig <? d) && (d <? 100 * k_sig)) <$> dt in
  let idx3 := (λ d, 100 * k_sig <=? d) <$> dt in
  result ← np.setmask_scalar result idx1 Tmin;
  dt2 ← np.getmask dt idx2;
  result ← np.setmask result idx2 (logistic_expr Tmin Tmax k_sig <$> dt2);
  result ← np.setmask_scalar result idx3 Tmax;
  Some result.

End logistic.

(** The exponential at the two arguments that the examples below evaluate:
    the doubles nearest to [e^-99] and to [e^-50]. Both are far below
    [2^-53], so that [1 + np.exp(..)] is 1 whatever the last digits of
    numpy's exponential are. [nan] stands for no entry. *)
Definition exp_table (x : float) : float :=
  if x =? -99 then 1.0112214926104486e-43
  else if x =? -50 then 1.9287498479639178e-22
  else nan.

End binary64.

(** * bolometric-checkpoint.py *)

Module bolo.

#[local] Open Scope R_scope.

(** The expression of the unguarded branch of [sigmoid]. *)
Definition sigmoid_expr (amplitude rise_time dt : R) : R :=
  amplitude / (exp (- dt / rise_time) + 1).

Definition sigmoid (t : list R) (t0 amplitude rise_time : R) : option (list R) :=
  let dt := (λ x, x - t0) <$> t in
  let result := np.zeros_like dt in
  let idx := (λ d, np.gt d (-100 * rise_time)) <$> dt in
  dt' ← np.getmask dt idx;
  result ← np.setmask result idx (sigmoid_expr amplitude rise_time <$> dt');
  Some result.

Definition sigmoid_parameter_names : list string :=
  ["reference_time"; "amplitude"; "rise_time"]%string.

Definition sigmoid_initial_guesses (baseline : bool) (t m : list R) (band : list string)
  : option (gmap string R) :=
  A ← (if baseline then np.ptp m else np.max m);
  let initial := ∅ in
  i ← np.argmax m;
  t_i ← t !! i;
  let initial := <["reference_time"%string := t_i]> initial in
  let initial := <["amplitude"%string := A]> initial in
  let initial := <["rise_time"%string := 1]> initial in
  Some initial.

Definition sigmoid_limits (baseline : bool) (t m : list R) (band : list string)
  : option (gmap string (R * R)) :=
  t_amplitude ← np.ptp t;
  m_amplitude ← (if baseline then np.ptp m else np.max m);
  let limits := ∅ in
  t_min ← np.min t;
  t_max ← np.max t;
  let limits := <["reference_time"%string := (t_min - 10 * t_amplitude, t_max + 10 * t_amplitude)]> limits in
  let limits := <["amplitude"%string := (0, 10 * m_amplitude)]> limits in
  let limits := <["rise_time"%string := (1e-4, 10 * t_amplitude)]> limits in
  Some limits.

(** The expression of the unguarded branch of [bazin]. *)
Definition bazin_expr (amplitude rise_time fall_time dt : R) : R :=
  amplitude / (exp (- dt / rise_time) + exp (dt / fall_time)).

Definition bazin (t : list R) (t0 amplitude rise_time fall_time : R) : option (list R) :=
  let dt := (λ x, x - t0) <$> t in
  let result := np.zeros_like dt in
  let idx := (λ d, np.gt d (-100 * rise_time) && np.lt d (100 * fall_time)) <$> dt in
  dt' ← np.getmask dt idx;
  result ← np.setmask result idx (bazin_expr amplitude rise_time fall_time <$> dt');
  Some result.

Definition bazin_parameter_names : list string :=
  ["reference_time"; "amplitude"; "rise_time"; "fall_time"]%string.

Definition bazin_initial_guesses (baseline : bool) (t m : list R) (band : list string)
  : option (gmap string R) :=
  A ← (if baseline then np.ptp m else np.max m);
  let initial := ∅ in
  i ← np.argmax m;
  t_i ← t !! i;
  let initial := <["reference_time"%string := t_i]> initial in
  let initial := <["amplitude"%string := A]> initial in
  let initial := <["rise_time"%string := 0.1]> initial in
  let initial := <["fall_time"%string := 0.1]> initial in
  Some initial.

Definition bazin_limits (baseline : bool) (t m : list R) (band : list string)
  : option (gmap string (R * R)) :=
  t_amplitude ← np.ptp t;
  m_amplitude ← (if baseline then np.ptp m else np.max m);
  let limits := ∅ in
  t_min ← np.min t;
  t_max ← np.max t;
  let limits := <["reference_time"%string := (t_min - 10 * t_amplitude, t_max + 10 * t_amplitude)]> limits in
  let limits := <["amplitude"%string := (0, 10 * m_amplitude)]> limits in
  let limits := <["rise_time"%string := (1e-4, 10 * t_amplitude)]> limits in
  let limits := <["fall_time"%string := (1e-4, 10 * t_amplitude)]> limits in
  Some limits.

(** One entry of [bolometric_dict], as for the temperature; the guesses and
    limits also take the baseline flag. *)
Record entry := {
  func : list R → list R → option value;
  parameter_names : list string;
  initial_guesses : bool → list R → list R → list string → option (gmap string R);
  limits : bool → list R → list R → list string → option (gmap string (R * R));
}.

Definition sigmoid_entry : entry := {|
  func t args :=
    match args with
    | [t0; amplitude; rise_time] => array <$> sigmoid t t0 amplitude rise_time
    | _ => None
    end;
  parameter_names := sigmoid_parameter_names;
  initial_guesses := sigmoid_initial_guesses;
  limits := sigmoid_limits;
|}.

Definition bazin_entry : entry := {|
  func t args :=
    match args with
    | [t0; amplitude; rise_time; fall_time] =>
        array <$> bazin t t0 amplitude rise_time fall_time
    | _ => None
    end;
  parameter_names := bazin_parameter_names;
  initial_guesses := bazin_initial_guesses;
  limits := bazin_limits;
|}.

Definition bolometric_dict : gmap string entry :=
  <["bazin"%string := bazin_entry]> (<["sigmoid"%string := sigmoid_entry]> ∅).

End bolo.

(** * general-checkpoint.py *)

(** [_scaler.py] is not among the sources: the inverse transforms of a
    scaler are taken as they come. *)
Module Scaler.
Record t := { undo_shift_scale : R → R; undo_scale : R → R }.
End Scaler.

Module MultiBandScaler.
Record t := { undo_scale : R → R }.
End MultiBandScaler.

(** Python's [d1 | d2]: the keys of both, the value of [d2] where both have
    the key. *)
Definition dict_or {V} (d1 d2 : gmap string V) : gmap string V :=
  union_with (λ _ v2, Some v2) d1 d2.

Module general.

#[local] Open Scope R_scope.

(** [self.p], the enumeration of the fit parameters ([_base.py] is not among
    the sources): [attrs] gives the attributes that name a parameter, with
    its index in the parameter vector, [hasattr(self.p, name)] is
    [is_Some (attrs !! name)]. [baseline_parameter_name] is the naming of
    the baseline parameters of a fit with baseline; the registry of a fit
    without baseline has none, and what is stated through it is stated of
    fits with baseline. *)
Record Parameters := {
  attrs : gmap string nat;
  all_bol_idx : list nat;
  all_temp_idx : list nat;
  baseline_parameter_name : string → string;
}.

Record RainbowGeneralFit := {
  with_baseline : bool;
  bands_names : list string;
  average_nu : R;
  p : Parameters;
  bolometric : string;
  temperature : string;
}.

(** [[x for x in l if cond(x)]], where evaluating the condition can raise. *)
Fixpoint comprehension_if {A} (cond : A → option bool) (l : list A) : option (list A) :=
  match l with
  | [] => Some []
  | x :: l' =>
      b ← cond x;
      r ← comprehension_if cond l';
      Some (if b : bool then x :: r else r)
  end.

(** [params[i] = f(params[i])]: IndexError outside the vector. *)
Definition update_item (params : list R) (i : nat) (f : R → R) : option (list R) :=
  x ← params !! i; Some (<[i := f x]> params).

(** [if hasattr(self.p, name): params[self.p.name] = f(params[self.p.name])] *)
Definition update_attr (self : RainbowGeneralFit) (name : string) (f : R → R)
    (params : list R) : option (list R) :=
  match attrs (p self) !! name with
  | Some i => update_item params i f
  | None => Some params
  end.

Section methods.

(** The two module-level registries of strategies. Further strategies can be
    registered in them, so the methods are written over any content; the
    registries of the sources are [bolo.bolometric_dict] and
    [temp.temperature_dict]. *)
Context (bolometric_dict : gmap string bolo.entry).
Context (temperature_dict : gmap string temp.entry).

Definition _common_parameter_names (self : RainbowGeneralFit) : option (list string) :=
  b ← bolometric_dict !! bolometric self;
  let bolometric_parameters := bolo.parameter_names b in
  te ← temperature_dict !! temperature self;
  let temperature_parameters := temp.parameter_names te in
  Some (filter (λ j, j ∈ temperature_parameters) bolometric_parameters).

Definition _bolometric_parameter_names (self : RainbowGeneralFit) : option (list string) :=
  b ← bolometric_dict !! bolometric self;
  let bolometric_parameters := bolo.parameter_names b in
  comprehension_if
    (λ i, common ← _common_parameter_names self; Some (bool_decide (i ∉ common)))
    bolometric_parameters.

Definition _temperature_parameter_names (self : RainbowGeneralFit) : option (list string) :=
  te ← temperature_dict !! temperature self;
  let temperature_parameters := temp.parameter_names te in
  comprehension_if
    (λ i, common ← _common_parameter_names self; Some (bool_decide (i ∉ common)))
    temperature_parameters.

Definition bol_func (self : RainbowGeneralFit) (t params : list R) : option value :=
  b ← bolometric_dict !! bolometric self;
  args ← mapM (λ i, params !! i) (all_bol_idx (p self));
  bolo.func b t args.

Definition temp_func (self : RainbowGeneralFit) (t params : list R) : option value :=
  te ← temperature_dict !! temperature self;
  args ← mapM (λ i, params !! i) (all_temp_idx (p self));
  temp.func te t args.

Definition _normalize_bolometric_flux (self : RainbowGeneralFit) (params : list R)
  : option (list R) :=
  update_attr self "amplitude" (λ x, x / average_nu self) params.

Definition _denormalize_bolometric_flux (self : RainbowGeneralFit) (params : list R)
  : option (list R) :=
  update_attr self "amplitude" (λ x, x * average_nu self) params.

Definition _unscale_parameters (self : RainbowGeneralFit) (params : list R)
    (t_scaler : Scaler.t) (m_scaler : MultiBandScaler.t) : option (list R) :=
  params ← _denormalize_bolometric_flux self params;
  params ← update_attr self "reference_time" (Scaler.undo_shift_scale t_scaler) params;
  params ← update_attr self "rise_time" (Scaler.undo_scale t_scaler) params;
  params ← update_attr self "fall_time" (Scaler.undo_scale t_scaler) params;
  params ← update_attr self "k_sig" (Scaler.undo_scale t_scaler) params;
  params ← update_attr self "amplitude" (MultiBandScaler.undo_scale m_scaler) params;
  Some params.

Definition _initial_guesses (self : RainbowGeneralFit) (t m : list R) (band : list string)
  : option (gmap string R) :=
  b ← bolometric_dict !! bolometric self;
  initial_bolo ← bolo.initial_guesses b (with_baseline self) t m band;
  te ← temperature_dict !! temperature self;
  initial_temp ← temp.initial_guesses te t m band;
  Some (dict_or initial_bolo initial_temp).

Definition _limits (self : RainbowGeneralFit) (t m : list R) (band : list string)
  : option (gmap string (R * R)) :=
  b ← bolometric_dict !! bolometric self;
  limits_bolo ← bolo.limits b (with_baseline self) t m band;
  te ← temperature_dict !! temperature self;
  limits_temp ← temp.limits te t m band;
  Some (dict_or limits_bolo limits_temp).

(** [band == b], elementwise. *)
Definition band_eq (band : list string) (b : string) : list bool :=
  (λ x, bool_decide (x = b)) <$> band.

(** The dictionary comprehension of [_baseline_initial_guesses], entry after
    entry; a value [None] is the NaN that [np.median] gives for a band
    without observations. *)
Fixpoint baseline_comprehension (self : RainbowGeneralFit) (m : list R) (band : list string)
    (names : list string) (d : gmap string (option R)) : option (gmap string (option R)) :=
  match names with
  | [] => Some d
  | b :: names' =>
      m_b ← np.getmask m (band_eq band b);
      baseline_comprehension self m band names'
        (<[baseline_parameter_name (p self) b := np.median m_b]> d)
  end.

Definition _baseline_initial_guesses (self : RainbowGeneralFit) (t m : list R)
    (band : list string) : option (gmap string (option R)) :=
  baseline_comprehension self m band (bands_names self) ∅.

Definition peak_time (self : RainbowGeneralFit) (params : list R) : option R :=
  i ← attrs (p self) !! "reference_time"%string;
  params !! i.

End methods.

End general.

(** * Pointwise readings of the guarded evaluation functions *)

Module pointwise.

#[local] Open Scope R_scope.

(** One element of [logistic], through the three masked assignments in the
    order of the source. *)
Definition logistic (Tmin Tmax k_sig dt : R) : R :=
  let result := 0 in
  let result := if np.le dt (-100 * k_sig) then Tmin else result in
  let result :=
    if np.gt dt (-100 * k_sig) && np.lt dt (100 * k_sig)
    then temp.logistic_expr Tmin Tmax k_sig dt else result in
  if np.ge dt (100 * k_sig) then Tmax else result.

Definition sigmoid (amplitude rise_time dt : R) : R :=
  if np.gt dt (-100 * rise_time) then bolo.sigmoid_expr amplitude rise_time dt else 0.

Definition bazin (amplitude rise_time fall_time dt : R) : R :=
  if np.gt dt (-100 * rise_time) && np.lt dt (100 * fall_time)
  then bolo.bazin_expr amplitude rise_time fall_time dt else 0.

End pointwise.

(** * Concrete configurations used in the examples below *)

Module examples.

#[local] Open Scope R_scope.

(** The default fit, [bazin] with [logistic], with a baseline, over the
    bands [g] and [r]: the parameter vector is [reference_time, amplitude,
    rise_time, fall_time, Tmin, Tmax, k_sig, baseline_g, baseline_r]. *)
Definition p_bazin_logistic : general.Parameters := {|
  general.attrs :=
    list_to_map [("reference_time", 0); ("amplitude", 1); ("rise_time", 2);
                 ("fall_time", 3); ("Tmin", 4); ("Tmax", 5); ("k_sig", 6);
                 ("baseline_g", 7); ("baseline_r", 8)]%string%nat;
  general.all_bol_idx := [0; 1; 2; 3]%nat;
  general.all_temp_idx := [0; 4; 5; 6]%nat;
  general.baseline_parameter_name b := ("baseline_" +:+ b)%string;
|}.

Definition bazin_logistic : general.RainbowGeneralFit := {|
  general.with_baseline := true;
  general.bands_names := ["g"; "r"]%string;
  general.average_nu := 5e14;
  general.p := p_bazin_logistic;
  general.bolometric := "bazin";
  general.temperature := "logistic";
|}.

Definition params_bazin_logistic : list R :=
  [60000; 1; 5; 30; 5000; 15000; 4; 0.5; 0.25].

(** The same fit with the [sigmoid] bolometric flux. *)
Definition sigmoid_logistic : general.RainbowGeneralFit := {|
  general.with_baseline := true;
  general.bands_names := ["g"; "r"]%string;
  general.average_nu := 5e14;
  general.p := p_bazin_logistic;
  general.bolometric := "sigmoid";
  general.temperature := "logistic";
|}.

Definition t_scaler : Scaler.t := {|
  Scaler.undo_shift_scale x := 59000 + 2000 * x;
  Scaler.undo_scale x := 2000 * x;
|}.

Definition m_scaler : MultiBandScaler.t := {|
  MultiBandScaler.undo_scale x := 3 * x;
|}.

(** A temperature strategy that is not in the sources: a constant
    temperature that also guesses and bounds the common parameter
    [reference_time]. *)
Definition shifted_parameter_names : list string := ["reference_time"; "T"]%string.

Definition shifted_initial_guesses (t m : list R) (band : list string) : gmap string R :=
  let initial := ∅ in
  let initial := <["reference_time"%string := 0]> initial in
  let initial := <["T"%string := 8000]> initial in
  initial.

Definition shifted_limits (t m : list R) (band : list string) : gmap string (R * R) :=
  let limits := ∅ in
  let limits := <["reference_time"%string := (-1, 1)]> limits in
  let limits := <["T"%string := (1e2, 2e6)]> limits in
  limits.

Definition shifted_entry : temp.entry := {|
  temp.func t args := match args with [t0; T] => Some (scalar T) | _ => None end;
  temp.parameter_names := shifted_parameter_names;
  temp.initial_guesses t m band := Some (shifted_initial_guesses t m band);
  temp.limits t m band := Some (shifted_limits t m band);
|}.

Definition temperature_dict_shifted : gmap string temp.entry :=
  <["shifted"%string := shifted_entry]> temp.temperature_dict.

Definition bazin_shifted : general.RainbowGeneralFit := {|
  general.with_baseline := false;
  general.bands_names := ["g"; "r"]%string;
  general.average_nu := 5e14;
  general.p := p_bazin_logistic;
  general.bolometric := "bazin";
  general.temperature := "shifted";
|}.

End examples.

(** * Vocabulary of the statements *)

(** The parameters that [_unscale_parameters] rescales. *)
Definition scaled_names : list string :=
  ["reference_time"; "rise_time"; "fall_time"; "k_sig"; "amplitude"]%string.

(** The flux values of the observations whose band is [b]. *)
Definition band_flux (m : list R) (band : list string) (b : string) : list R :=
  snd <$> filter (λ o, o.1 = b) (zip band m).

(** The value of [name] in a merge where the second dictionary has
    precedence. *)
Definition second_wins {V} (d1 d2 : gmap string V) (name : string) : option V :=
  match d2 !! name with
  | Some v => Some v
  | None => d1 !! name
  end.

(** What every step of [_unscale_parameters] keeps of the vector [params]:
    the length, and the entries that no rescaled parameter points to. *)
Definition unscale_frame (self : general.RainbowGeneralFit) (params q : list R) : Prop :=
  length q = length params
  ∧ ∀ j, (∀ name, name ∈ scaled_names →
                  general.attrs (general.p self) !! name ≠ Some j) →
         q !! j = params !! j.

(** The baseline guess that the dictionary comprehension computes for the
    band [b]. *)
Definition baseline_guess (m : list R) (band : list string) (b : string) : option R :=
  np.median (np.select m (general.band_eq band b)).

(** The names under which the temperature strategies of the sources give
    guesses and limits. *)
Definition temperature_only_names : list string := ["T"; "Tmin"; "Tmax"; "k_sig"]%string.

(** The names that the two strategies of a fit have in common, in the order
    of the bolometric strategy. *)
Definition common_names (b : bolo.entry) (te : temp.entry) : list string :=
  filter (λ j, j ∈ temp.parameter_names te) (bolo.parameter_names b).

(** * Vocabulary of the further properties *)

(** A guess dictionary lies within a limits dictionary at [name]. *)
Definition within_limits (initial : gmap string R) (limits : gmap string (R * R))
    (name : string) : Prop :=
  ∃ v low high,
    initial !! name = Some v ∧ limits !! name = Some (low, high)
    ∧ (low <= v <= high)%R.

Module examples2.

#[local] Open Scope R_scope.

(** The fit [sigmoid] with [constant], without baseline: the parameter vector
    is [reference_time, amplitude, rise_time, T]. *)
Definition p_sigmoid_constant : general.Parameters := {|
  general.attrs :=
    list_to_map [("reference_time", 0); ("amplitude", 1); ("rise_time", 2);
                 ("T", 3)]%string%nat;
  general.all_bol_idx := [0; 1; 2]%nat;
  general.all_temp_idx := [3]%nat;
  general.baseline_parameter_name b := ("baseline_" +:+ b)%string;
|}.

Definition sigmoid_constant : general.RainbowGeneralFit := {|
  general.with_baseline := false;
  general.bands_names := ["g"; "r"]%string;
  general.average_nu := 5e14;
  general.p := p_sigmoid_constant;
  general.bolometric := "sigmoid";
  general.temperature := "constant";
|}.

Definition params_sigmoid_constant : list R := [60000; 1; 5; 8000].

(** A fit whose bolometric strategy is not registered. *)
Definition unknown_bolometric : general.RainbowGeneralFit := {|
  general.with_baseline := false;
  general.bands_names := ["g"; "r"]%string;
  general.average_nu := 5e14;
  general.p := p_sigmoid_constant;
  general.bolometric := "linexp";
  general.temperature := "constant";
|}.

End examples2.

(** * Properties *)

(** ** Masked selection and assignment *)

Section masks.
Context {A B : Type}.
Implicit Types (f : B → bool) (h g : B → A) (l : list B).

Lemma getmask_fmap f l :
  np.getmask l (f <$> l) = Some (np.select l (f <$> l)).
Proof.
  unfold np.getmask. rewrite length_fmap. by rewrite decide_True.
Qed.

Lemma put_fmap f h g l :
  np.put (h <$> l) (f <$> l) (g <$> np.select l (f <$> l))
  = Some ((λ d, if f d then g d else h d) <$> l).
Proof.
  induction l as [|d l IH]; [done|].
  cbn [fmap list_fmap np.select np.put].
  destruct (f d); cbn [fmap list_fmap]; by rewrite IH.
Qed.

Lemma setmask_fmap f h g l :
  np.setmask (h <$> l) (f <$> l) (g <$> np.select l (f <$> l))
  = Some ((λ d, if f d then g d else h d) <$> l).
Proof.
  unfold np.setmask. rewrite !length_fmap, decide_True by done. apply put_fmap.
Qed.

Lemma setmask_scalar_fmap f h (v : A) l :
  np.setmask_scalar (h <$> l) (f <$> l) v
  = Some ((λ d, if f d then v else h d) <$> l).
Proof.
  unfold np.setmask_scalar. rewrite !length_fmap, decide_True by done. f_equal.
  induction l as [|d l IH]; [done|]. cbn. by rewrite IH.
Qed.

End masks.

(** ** The evaluation functions, element by element *)

Lemma logistic_elementwise t t0 Tmin Tmax k_sig :
  temp.logistic t t0 Tmin Tmax k_sig
  = Some ((λ x, pointwise.logistic Tmin Tmax k_sig (x - t0)%R) <$> t).
Proof.
  unfold temp.logistic, np.zeros_like.
  rewrite setmask_scalar_fmap. cbn [mbind option_bind].
  rewrite getmask_fmap. cbn [mbind option_bind].
  rewrite setmask_fmap. cbn [mbind option_bind].
  rewrite setmask_scalar_fmap. cbn [mbind option_bind].
  by rewrite <- list_fmap_compose.
Qed.

Lemma sigmoid_elementwise t t0 amplitude rise_time :
  bolo.sigmoid t t0 amplitude rise_time
  = Some ((λ x, pointwise.sigmoid amplitude rise_time (x - t0)%R) <$> t).
Proof.
  unfold bolo.sigmoid, np.zeros_like.
  rewrite getmask_fmap. cbn [mbind option_bind].
  rewrite setmask_fmap. cbn [mbind option_bind].
  by rewrite <- list_fmap_compose.
Qed.

Lemma bazin_elementwise t t0 amplitude rise_time fall_time :
  bolo.bazin t t0 amplitude rise_time fall_time
  = Some ((λ x, pointwise.bazin amplitude rise_time fall_time (x - t0)%R) <$> t).
Proof.
  unfold bolo.bazin, np.zeros_like.
  rewrite getmask_fmap. cbn [mbind option_bind].
  rewrite setmask_fmap. cbn [mbind option_bind].
  by rewrite <- list_fmap_compose.
Qed.

(** ** Real-number facts about the exponential and the logistic weight *)

Section exponential.
#[local] Open Scope R_scope.

Lemma exp_INR_pow (n : nat) : exp (INR n) = exp 1 ^ n.
Proof.
  induction n as [|n IH]; [apply exp_0|].
  rewrite S_INR, exp_plus, IH. cbn [pow]. ring.
Qed.

Lemma exp_100_large : 2 ^ 100 <= exp 100.
Proof.
  assert (exp 100 = exp 1 ^ 100) as ->.
  { rewrite <- exp_INR_pow. f_equal. by rewrite INR_IZR_INZ. }
  apply pow_incr. split; [lra|].
  pose proof (exp_ineq1_le 1). lra.
Qed.

Lemma exp_le (x y : R) : x <= y → exp x <= exp y.
Proof.
  intros [Hlt| ->]; [|lra]. left. by apply exp_increasing.
Qed.

Lemma exp_ge_100 (x : R) : 100 <= x → 2 ^ 100 <= exp x.
Proof.
  intros Hx. etransitivity; [apply exp_100_large|]. by apply exp_le.
Qed.

Lemma div_ge (x r c : R) : 0 < r → c * r <= x → c <= x / r.
Proof.
  intros Hr Hx. apply Rmult_le_reg_r with r; [lra|].
  unfold Rdiv. rewrite Rmult_assoc, Rinv_l by lra. lra.
Qed.

Lemma div_le (x r c : R) : 0 < r → x <= c * r → x / r <= c.
Proof.
  intros Hr Hx. apply Rmult_le_reg_r with r; [lra|].
  unfold Rdiv. rewrite Rmult_assoc, Rinv_l by lra. lra.
Qed.

Lemma pow2_100_pos : 0 < 2 ^ 100.
Proof. apply pow_lt. lra. Qed.

(** [a / d] is small when the denominator is large. *)
Lemma Rabs_div_le (a d D : R) : 0 < D → D <= d → Rabs (a / d) <= Rabs a / D.
Proof.
  intros HD Hd. unfold Rdiv. rewrite Rabs_mult, Rabs_inv.
  rewrite (Rabs_pos_eq d) by lra.
  apply Rmult_le_compat_l; [apply Rabs_pos|].
  apply Rinv_le_contravar; lra.
Qed.

(** The weight [1 / (1 + exp x)] of the logistic lies strictly between 0 and 1. *)
Lemma logistic_weight (x : R) : 0 < / (1 + exp x) < 1.
Proof.
  pose proof (exp_pos x) as He. split.
  - apply Rinv_0_lt_compat. lra.
  - rewrite <- Rinv_1 at 2. apply Rinv_lt_contravar; lra.
Qed.

Lemma logistic_expr_between (Tmin Tmax k_sig dt : R) :
  Rmin Tmin Tmax <= temp.logistic_expr Tmin Tmax k_sig dt <= Rmax Tmin Tmax.
Proof.
  unfold temp.logistic_expr, Rdiv.
  pose proof (logistic_weight (dt * / k_sig)) as [H0 H1].
  set (s := / (1 + exp (dt * / k_sig))) in *. clearbody s.
  unfold Rmin, Rmax. destruct (Rle_dec Tmin Tmax); nra.
Qed.

End exponential.

(** ** The three regions of [logistic] *)

Ltac case_masks :=
  unfold np.gt, np.ge in *; unfold np.le, np.lt in *;
  repeat case_bool_decide; cbn [andb].

Lemma logistic_regions (Tmin Tmax k_sig dt : R) :
  (0 < k_sig)%R →
  pointwise.logistic Tmin Tmax k_sig dt =
    if decide (dt <= -100 * k_sig)%R then Tmin
    else if decide (dt < 100 * k_sig)%R then temp.logistic_expr Tmin Tmax k_sig dt
    else Tmax.
Proof.
  intros Hk. unfold pointwise.logistic. case_masks; repeat case_decide.
  all: try lra. all: done.
Qed.

(** ** Range of the logistic temperature *)

(** C9, as amended: in exact arithmetic. With [k_sig > 0], [logistic]
    returns an array as long as [t], and every element of it lies between
    the smaller and the larger of [Tmin] and [Tmax] when the expression of
    the unguarded branch is evaluated over the real numbers. On doubles the
    rounding of that expression can leave the interval, see
    [logistic_binary64_leaves_interval]. *)
Theorem logistic_between_Tmin_Tmax (t : list R) (t0 Tmin Tmax k_sig : R) :
  (0 < k_sig)%R →
  ∃ result,
    temp.logistic t t0 Tmin Tmax k_sig = Some result
    ∧ length result = length t
    ∧ ∀ T, T ∈ result → (Rmin Tmin Tmax <= T <= Rmax Tmin Tmax)%R.
Proof.
  intros Hk. eexists. split; [apply logistic_elementwise|].
  split; [by rewrite length_fmap|].
  intros T [x [-> _]]%list_elem_of_fmap.
  rewrite logistic_regions by done.
  repeat case_decide.
  - split; [apply Rmin_l | apply Rmax_l].
  - apply logistic_expr_between.
  - split; [apply Rmin_r | apply Rmax_r].
Qed.

Lemma logistic_between_Tmin_Tmax_witness :
  (0 < 4)%R
  ∧ ∃ result,
      temp.logistic [59000; 60000; 61000]%R 60000 5000 15000 4 = Some result
      ∧ length result = 3
      ∧ ∀ T, T ∈ result → (Rmin 5000 15000 <= T <= Rmax 5000 15000)%R.
Proof.
  split; [lra|].
  apply (logistic_between_Tmin_Tmax [59000; 60000; 61000]%R 60000 5000 15000 4).
  lra.
Defined.

(** ** The same range on doubles *)

Section binary64_range.
#[local] Open Scope float_scope.
#[local] Set Warnings "-inexact-float".

(** One plus any double from the smallest positive one up to [2^-54] is 1,
    and the two entries of [exp_table] lie in between: the two results
    below do not depend on the last digits of the exponential. *)
Lemma exp_table_below_half_ulp :
  1 + 0x1p-1074 = 1 ∧ 1 + 0x1p-54 = 1
  ∧ (0x1p-1074 <=? binary64.exp_table (-99)) = true
  ∧ (binary64.exp_table (-99) <=? 0x1p-54) = true
  ∧ (0x1p-1074 <=? binary64.exp_table (-50)) = true
  ∧ (binary64.exp_table (-50) <=? 0x1p-54) = true.
Proof. repeat split; reflexivity. Qed.

(** C9, as the claim has it, fails on doubles. With [t0 = 0] and [k_sig =
    1], the sample at [t = -99] is in the unguarded branch, where [1 +
    np.exp(-99)] is 1 and [Tmin + (Tmax - Tmin)] is rounded: for [Tmin =
    289852.63642902655] and [Tmax = 21587.556295382285] the result
    [21587.556295382266] is below both; for [Tmin = 1024.1] and [Tmax =
    8000.2], at [t = -50], the result [8000.2000000000007] is above both. *)
Lemma logistic_binary64_leaves_interval :
  binary64.logistic binary64.exp_table [-99] 0 289852.63642902655 21587.556295382285 1
  = Some [21587.556295382266]
  ∧ (21587.556295382266 <? 21587.556295382285) = true
  ∧ (21587.556295382285 <? 289852.63642902655) = true
  ∧ binary64.logistic binary64.exp_table [-50] 0 1024.1 8000.2 1
    = Some [8000.2000000000007]
  ∧ (8000.2 <? 8000.2000000000007) = true
  ∧ (1024.1 <? 8000.2) = true.
Proof. repeat split; reflexivity. Qed.

End binary64_range.

(** ** The guard of [logistic] against its own expression *)

Section logistic_guard.
#[local] Open Scope R_scope.

(** Near the lower guard boundary the expression is close to [Tmax]. *)
Lemma logistic_expr_near_Tmax (Tmin Tmax k_sig dt : R) :
  0 < k_sig → dt <= -99 * k_sig →
  Rabs (temp.logistic_expr Tmin Tmax k_sig dt - Tmax) <= Rabs (Tmax - Tmin) / 100.
Proof.
  intros Hk Hdt. unfold temp.logistic_expr.
  set (e := exp (dt / k_sig)).
  assert (0 < e) as He by apply exp_pos.
  assert (e <= / 100) as He'.
  { assert (dt / k_sig <= -99) as Hx.
    { apply div_le; lra. }
    assert (exp (dt / k_sig) <= exp (Ropp 99)) as Hle.
    { apply exp_le. lra. }
    rewrite exp_Ropp in Hle. etransitivity; [exact Hle|].
    apply Rinv_le_contravar; [lra|]. pose proof (exp_ineq1_le 99). lra. }
  replace (Tmin + (Tmax - Tmin) / (1 + e) - Tmax)
    with (- (Tmax - Tmin) * (e / (1 + e))) by (field; lra).
  rewrite Rabs_mult, Rabs_Ropp. unfold Rdiv at 2.
  apply Rmult_le_compat_l; [apply Rabs_pos|].
  rewrite Rabs_pos_eq by (apply Rlt_le, Rdiv_lt_0_compat; lra).
  apply Rmult_le_reg_r with (1 + e); [lra|].
  unfold Rdiv. rewrite Rmult_assoc, Rinv_l by lra. lra.
Qed.

(** Near the upper guard boundary the expression is close to [Tmin]. *)
Lemma logistic_expr_near_Tmin (Tmin Tmax k_sig dt : R) :
  0 < k_sig → 99 * k_sig <= dt →
  Rabs (temp.logistic_expr Tmin Tmax k_sig dt - Tmin) <= Rabs (Tmax - Tmin) / 100.
Proof.
  intros Hk Hdt. unfold temp.logistic_expr.
  replace (Tmin + (Tmax - Tmin) / (1 + exp (dt / k_sig)) - Tmin)
    with ((Tmax - Tmin) / (1 + exp (dt / k_sig))) by ring.
  apply Rabs_div_le; [lra|].
  assert (99 <= dt / k_sig) as Hx by (apply div_ge; lra).
  pose proof (exp_le _ _ Hx). pose proof (exp_ineq1_le 99). lra.
Qed.

End logistic_guard.

(** On each guard boundary [logistic] takes one limit temperature, and
    just inside the boundary it is within a hundredth of the distance
    [|Tmax - Tmin|] of the other one. *)
Lemma logistic_guard_jump (Tmin Tmax k_sig : R) :
  (0 < k_sig)%R →
  pointwise.logistic Tmin Tmax k_sig (-100 * k_sig) = Tmin
  ∧ pointwise.logistic Tmin Tmax k_sig (100 * k_sig) = Tmax
  ∧ (∀ dt, (-100 * k_sig < dt <= -99 * k_sig)%R →
       (Rabs (pointwise.logistic Tmin Tmax k_sig dt - Tmax) <= Rabs (Tmax - Tmin) / 100)%R)
  ∧ (∀ dt, (99 * k_sig <= dt < 100 * k_sig)%R →
       (Rabs (pointwise.logistic Tmin Tmax k_sig dt - Tmin) <= Rabs (Tmax - Tmin) / 100)%R).
Proof.
  intros Hk. split_and!.
  - rewrite logistic_regions by done. rewrite decide_True by lra. done.
  - rewrite logistic_regions by done. rewrite decide_False, decide_False by lra. done.
  - intros dt Hdt. rewrite logistic_regions by done.
    rewrite decide_False, decide_True by lra.
    apply logistic_expr_near_Tmax; lra.
  - intros dt Hdt. rewrite logistic_regions by done.
    rewrite decide_False, decide_True by lra.
    apply logistic_expr_near_Tmin; lra.
Qed.

(** C2. The guard of [logistic] substitutes the two limits the wrong way
    round. With [t0 = 0], [Tmin = 4000], [Tmax = 10000] and [k_sig = 1], the
    sample on the lower guard boundary gets [Tmin = 4000] while the next
    sample, just inside, is above 9940; the sample on the upper boundary gets
    [Tmax = 10000] while the one just inside is below 4060. *)
Theorem logistic_guard_values_swapped :
  ∃ y_lo y_hi : R,
    temp.logistic [-100; -99; 99; 100]%R 0 4000 10000 1
    = Some [4000; y_lo; y_hi; 10000]%R
    ∧ (9940 <= y_lo <= 10000)%R ∧ (4000 <= y_hi <= 4060)%R.
Proof.
  exists (temp.logistic_expr 4000 10000 1 (-99 - 0)),
         (temp.logistic_expr 4000 10000 1 (99 - 0)).
  split.
  - rewrite logistic_elementwise. cbn [fmap list_fmap].
    rewrite !logistic_regions by lra.
    repeat case_decide; try lra. done.
  - pose proof (logistic_expr_near_Tmax 4000 10000 1 (-99 - 0)) as Hlo.
    pose proof (logistic_expr_near_Tmin 4000 10000 1 (99 - 0)) as Hhi.
    pose proof (logistic_expr_between 4000 10000 1 (-99 - 0)) as Blo.
    pose proof (logistic_expr_between 4000 10000 1 (99 - 0)) as Bhi.
    rewrite Rmin_left, Rmax_right in Blo, Bhi by lra.
    rewrite (Rabs_pos_eq (10000 - 4000)) in Hlo, Hhi by lra.
    specialize (Hlo ltac:(lra) ltac:(lra)). specialize (Hhi ltac:(lra) ltac:(lra)).
    unfold Rabs in Hlo, Hhi.
    destruct (Rcase_abs _) in Hlo; destruct (Rcase_abs _) in Hhi; lra.
Qed.

(** ** The guards of [sigmoid] and [bazin] *)

Section bolometric_guard.
#[local] Open Scope R_scope.

Lemma sigmoid_regions (amplitude rise_time dt : R) :
  pointwise.sigmoid amplitude rise_time dt =
    if decide (dt <= -100 * rise_time) then 0
    else bolo.sigmoid_expr amplitude rise_time dt.
Proof. unfold pointwise.sigmoid. case_masks; case_decide; (done || lra). Qed.

Lemma bazin_regions (amplitude rise_time fall_time dt : R) :
  pointwise.bazin amplitude rise_time fall_time dt =
    if decide (dt <= -100 * rise_time ∨ 100 * fall_time <= dt) then 0
    else bolo.bazin_expr amplitude rise_time fall_time dt.
Proof.
  unfold pointwise.bazin. case_masks; case_decide; try done.
  all: exfalso; lra.
Qed.

(** The two expressions are bounded by the amplitude over any lower bound of
    one exponential of the denominator. *)
Lemma sigmoid_expr_bound (amplitude rise_time dt y D : R) :
  0 < rise_time → 0 < D → D <= exp y → dt <= - y * rise_time →
  Rabs (bolo.sigmoid_expr amplitude rise_time dt) <= Rabs amplitude / D.
Proof.
  intros Hr HD HDy Hdt. unfold bolo.sigmoid_expr. apply Rabs_div_le; [done|].
  assert (y <= - dt / rise_time) as Hx by (apply div_ge; lra).
  pose proof (exp_le _ _ Hx). lra.
Qed.

Lemma bazin_expr_bound (amplitude rise_time fall_time dt y D : R) :
  0 < rise_time → 0 < fall_time → 0 < D → D <= exp y →
  dt <= - y * rise_time ∨ y * fall_time <= dt →
  Rabs (bolo.bazin_expr amplitude rise_time fall_time dt) <= Rabs amplitude / D.
Proof.
  intros Hr Hf HD HDy Hdt. unfold bolo.bazin_expr. apply Rabs_div_le; [done|].
  pose proof (exp_pos (- dt / rise_time)). pose proof (exp_pos (dt / fall_time)).
  destruct Hdt as [Hdt|Hdt].
  - assert (y <= - dt / rise_time) as Hx by (apply div_ge; lra).
    pose proof (exp_le _ _ Hx). lra.
  - assert (y <= dt / fall_time) as Hx by (apply div_ge; lra).
    pose proof (exp_le _ _ Hx). lra.
Qed.

(** [|a| / (1 + |a| / eps)] is below [eps]. *)
Lemma amplitude_over_eps (a eps : R) : 0 < eps → Rabs a / (1 + Rabs a / eps) < eps.
Proof.
  intros He. pose proof (Rabs_pos a) as Ha.
  assert (0 <= Rabs a / eps) as Hq.
  { apply Rmult_le_pos; [done|]. left. by apply Rinv_0_lt_compat. }
  apply Rmult_lt_reg_r with (1 + Rabs a / eps); [lra|].
  unfold Rdiv at 1. rewrite Rmult_assoc, Rinv_l by lra.
  replace (eps * (1 + Rabs a / eps)) with (eps + Rabs a) by (field; lra). lra.
Qed.

End bolometric_guard.

(** C5. With positive time scales, [sigmoid] is zero on [dt <= -100 *
    rise_time] and its expression elsewhere, [bazin] is zero on [dt <= -100
    * rise_time] or [dt >= 100 * fall_time] and its expression elsewhere.
    On the guarded region the replaced expression is within [|amplitude| /
    2^100] of zero, so that the jump at the boundary is below any floating
    tolerance, and zero is its limit far from [t0]. With a nonzero
    amplitude the expressions are nowhere zero, so that the flux is zero on
    the guarded region only. *)
Theorem bolometric_guards_zero (t : list R) (t0 amplitude rise_time fall_time : R) :
  (0 < rise_time)%R → (0 < fall_time)%R →
  bolo.sigmoid t t0 amplitude rise_time
    = Some ((λ x, if decide (x - t0 <= -100 * rise_time)%R then 0%R
                  else bolo.sigmoid_expr amplitude rise_time (x - t0)) <$> t)
  ∧ bolo.bazin t t0 amplitude rise_time fall_time
    = Some ((λ x, if decide (x - t0 <= -100 * rise_time ∨ 100 * fall_time <= x - t0)%R
                  then 0%R
                  else bolo.bazin_expr amplitude rise_time fall_time (x - t0)) <$> t)
  ∧ (∀ dt, (dt <= -100 * rise_time)%R →
       (Rabs (bolo.sigmoid_expr amplitude rise_time dt) <= Rabs amplitude / 2 ^ 100)%R)
  ∧ (∀ dt, (dt <= -100 * rise_time ∨ 100 * fall_time <= dt)%R →
       (Rabs (bolo.bazin_expr amplitude rise_time fall_time dt)
        <= Rabs amplitude / 2 ^ 100)%R)
  ∧ (∀ eps, (0 < eps)%R → ∃ M, ∀ dt, (dt <= - M)%R →
       (Rabs (bolo.sigmoid_expr amplitude rise_time dt) < eps)%R)
  ∧ (∀ eps, (0 < eps)%R → ∃ M, ∀ dt, (dt <= - M ∨ M <= dt)%R →
       (Rabs (bolo.bazin_expr amplitude rise_time fall_time dt) < eps)%R)
  ∧ (amplitude ≠ 0%R → ∀ dt,
       bolo.sigmoid_expr amplitude rise_time dt ≠ 0%R
       ∧ bolo.bazin_expr amplitude rise_time fall_time dt ≠ 0%R).
Proof.
  intros Hr Hf. split_and!.
  - rewrite sigmoid_elementwise. f_equal. apply list_fmap_ext.
    intros _ x _. apply sigmoid_regions.
  - rewrite bazin_elementwise. f_equal. apply list_fmap_ext.
    intros _ x _. apply bazin_regions.
  - intros dt Hdt.
    apply sigmoid_expr_bound with (y := 100%R);
      [done | apply pow2_100_pos | apply exp_100_large | lra].
  - intros dt Hdt.
    apply bazin_expr_bound with (y := 100%R);
      [done | done | apply pow2_100_pos | apply exp_100_large | lra].
  - intros eps He. pose proof (Rabs_pos amplitude) as Ha.
    assert (0 <= Rabs amplitude / eps)%R as Hq.
    { apply Rmult_le_pos; [done|]. left. by apply Rinv_0_lt_compat. }
    exists (Rabs amplitude / eps * rise_time)%R. intros dt Hdt.
    eapply Rle_lt_trans; [|by apply amplitude_over_eps].
    apply sigmoid_expr_bound with (y := (Rabs amplitude / eps)%R);
      [done | lra | apply exp_ineq1_le | lra].
  - intros eps He. pose proof (Rabs_pos amplitude) as Ha.
    assert (0 <= Rabs amplitude / eps)%R as Hq.
    { apply Rmult_le_pos; [done|]. left. by apply Rinv_0_lt_compat. }
    exists (Rabs amplitude / eps * (rise_time + fall_time))%R. intros dt Hdt.
    eapply Rle_lt_trans; [|by apply amplitude_over_eps].
    apply bazin_expr_bound with (y := (Rabs amplitude / eps)%R);
      [done | done | lra | apply exp_ineq1_le | nra].
  - intros Ha dt.
    pose proof (exp_pos (- dt / rise_time)). pose proof (exp_pos (dt / fall_time)).
    unfold bolo.sigmoid_expr, bolo.bazin_expr, Rdiv.
    split; (apply Rmult_integral_contrapositive_currified;
            [done | apply Rinv_neq_0_compat; lra]).
Qed.

Lemma bolometric_guards_zero_witness :
  (0 < 5)%R ∧ (0 < 30)%R
  ∧ bolo.sigmoid [59000; 60010]%R 60000 1 5
    = Some ((λ x, if decide (x - 60000 <= -100 * 5)%R then 0%R
                  else bolo.sigmoid_expr 1 5 (x - 60000)) <$> [59000; 60010]%R).
Proof.
  split; [lra|]. split; [lra|].
  apply (bolometric_guards_zero [59000; 60010]%R 60000 1 5 30); lra.
Defined.

(** ** The three lists of parameter names *)

Lemma comprehension_if_filter {A} (P : A → Prop) `{!∀ x, Decision (P x)}
    (cond : A → option bool) (l : list A) :
  (∀ x, cond x = Some (bool_decide (P x))) →
  general.comprehension_if cond l = Some (filter P l).
Proof.
  intros Hcond. induction l as [|x l IH]; [done|].
  cbn [general.comprehension_if]. rewrite Hcond, IH. cbn [mbind option_bind].
  rewrite filter_cons. by destruct (decide (P x)) as [HP|HP];
    [rewrite bool_decide_eq_true_2|rewrite bool_decide_eq_false_2].
Qed.

Section parameter_names.
Context (bolometric_dict : gmap string bolo.entry).
Context (temperature_dict : gmap string temp.entry).
Context (self : general.RainbowGeneralFit) (b : bolo.entry) (te : temp.entry).
Context (Hb : bolometric_dict !! general.bolometric self = Some b).
Context (Hte : temperature_dict !! general.temperature self = Some te).

#[local] Abbreviation common := (common_names b te).

Lemma common_parameter_names_eq :
  general._common_parameter_names bolometric_dict temperature_dict self = Some common.
Proof. unfold general._common_parameter_names. by rewrite Hb, Hte. Qed.

Lemma bolometric_parameter_names_eq :
  general._bolometric_parameter_names bolometric_dict temperature_dict self
  = Some (filter (λ i, i ∉ common) (bolo.parameter_names b)).
Proof.
  unfold general._bolometric_parameter_names. rewrite Hb. cbn [mbind option_bind].
  apply (comprehension_if_filter (λ i, i ∉ common)).
  intros x. by rewrite common_parameter_names_eq.
Qed.

Lemma temperature_parameter_names_eq :
  general._temperature_parameter_names bolometric_dict temperature_dict self
  = Some (filter (λ i, i ∉ common) (temp.parameter_names te)).
Proof.
  unfold general._temperature_parameter_names. rewrite Hte. cbn [mbind option_bind].
  apply (comprehension_if_filter (λ i, i ∉ common)).
  intros x. by rewrite common_parameter_names_eq.
Qed.

End parameter_names.

(** C4. For strategies with duplicate-free name lists, the common, the
    bolometric and the temperature names are pairwise disjoint and together
    are the names of the two strategies; the common names are the names that
    both strategies have, each once, in the order of the bolometric
    strategy. *)
Theorem parameter_names_partition
    (bolometric_dict : gmap string bolo.entry) (temperature_dict : gmap string temp.entry)
    (self : general.RainbowGeneralFit) (b : bolo.entry) (te : temp.entry) :
  bolometric_dict !! general.bolometric self = Some b →
  temperature_dict !! general.temperature self = Some te →
  NoDup (bolo.parameter_names b) →
  NoDup (temp.parameter_names te) →
  ∃ common bol tmp : list string,
    general._common_parameter_names bolometric_dict temperature_dict self = Some common
    ∧ general._bolometric_parameter_names bolometric_dict temperature_dict self = Some bol
    ∧ general._temperature_parameter_names bolometric_dict temperature_dict self = Some tmp
    ∧ common ## bol ∧ common ## tmp ∧ bol ## tmp
    ∧ (∀ x, x ∈ common ++ bol ++ tmp
            ↔ x ∈ bolo.parameter_names b ∨ x ∈ temp.parameter_names te)
    ∧ (∀ x, x ∈ common ↔ x ∈ bolo.parameter_names b ∧ x ∈ temp.parameter_names te)
    ∧ NoDup common
    ∧ common `sublist_of` bolo.parameter_names b.
Proof.
  intros Hb Hte Hnb Hnt.
  eexists _, _, _.
  split; [by apply common_parameter_names_eq|].
  split; [by apply bolometric_parameter_names_eq|].
  split; [by apply temperature_parameter_names_eq|].
  unfold common_names.
  set (bn := bolo.parameter_names b) in *. set (tn := temp.parameter_names te) in *.
  assert (∀ x, x ∈ filter (λ j, j ∈ tn) bn ↔ x ∈ bn ∧ x ∈ tn) as Hcommon.
  { intros x. rewrite list_elem_of_filter. tauto. }
  split_and!.
  - intros x Hx [Hn _]%list_elem_of_filter. done.
  - intros x Hx [Hn _]%list_elem_of_filter. done.
  - intros x [Hn1 Hx1]%list_elem_of_filter [Hn2 Hx2]%list_elem_of_filter.
    apply Hn1, Hcommon. done.
  - intros x. rewrite !elem_of_app, !list_elem_of_filter.
    destruct (decide (x ∈ bn)), (decide (x ∈ tn)); tauto.
  - apply Hcommon.
  - by apply NoDup_filter.
  - apply sublist_filter.
Qed.

Lemma parameter_names_partition_witness :
  ∃ common bol tmp : list string,
    general._common_parameter_names bolo.bolometric_dict temp.temperature_dict
      examples.bazin_logistic = Some common
    ∧ general._bolometric_parameter_names bolo.bolometric_dict temp.temperature_dict
        examples.bazin_logistic = Some bol
    ∧ general._temperature_parameter_names bolo.bolometric_dict temp.temperature_dict
        examples.bazin_logistic = Some tmp
    ∧ common ## bol ∧ common ## tmp ∧ bol ## tmp
    ∧ (∀ x, x ∈ common ++ bol ++ tmp
            ↔ x ∈ bolo.bazin_parameter_names ∨ x ∈ temp.logistic_parameter_names)
    ∧ (∀ x, x ∈ common ↔ x ∈ bolo.bazin_parameter_names ∧ x ∈ temp.logistic_parameter_names)
    ∧ NoDup common
    ∧ common `sublist_of` bolo.bazin_parameter_names.
Proof.
  apply (parameter_names_partition bolo.bolometric_dict temp.temperature_dict
           examples.bazin_logistic bolo.bazin_entry temp.logistic_entry).
  - reflexivity.
  - reflexivity.
  - apply (bool_decide_unpack _). vm_compute. reflexivity.
  - apply (bool_decide_unpack _). vm_compute. reflexivity.
Defined.

(** ** Merging the guesses and the limits of the two strategies *)

Lemma dict_or_lookup {V} (d1 d2 : gmap string V) (name : string) :
  dict_or d1 d2 !! name = second_wins d1 d2 name.
Proof.
  unfold dict_or, second_wins. rewrite lookup_union_with.
  by destruct (d1 !! name), (d2 !! name).
Qed.

(** C1, as the code has it. The merged guesses and the merged limits hold,
    for a name that the temperature strategy gives, the temperature
    strategy's value, also when the bolometric strategy gives the name too;
    the other names keep the bolometric strategy's value. *)
Theorem merged_guesses_temperature_wins
    (bolometric_dict : gmap string bolo.entry) (temperature_dict : gmap string temp.entry)
    (self : general.RainbowGeneralFit) (b : bolo.entry) (te : temp.entry)
    (t m : list R) (band : list string)
    (initial_bolo initial_temp : gmap string R)
    (limits_bolo limits_temp : gmap string (R * R)) :
  bolometric_dict !! general.bolometric self = Some b →
  temperature_dict !! general.temperature self = Some te →
  bolo.initial_guesses b (general.with_baseline self) t m band = Some initial_bolo →
  temp.initial_guesses te t m band = Some initial_temp →
  bolo.limits b (general.with_baseline self) t m band = Some limits_bolo →
  temp.limits te t m band = Some limits_temp →
  ∃ initial limits,
    general._initial_guesses bolometric_dict temperature_dict self t m band = Some initial
    ∧ general._limits bolometric_dict temperature_dict self t m band = Some limits
    ∧ (∀ name, initial !! name = second_wins initial_bolo initial_temp name)
    ∧ (∀ name, limits !! name = second_wins limits_bolo limits_temp name)
    ∧ (∀ name v_bolo v_temp,
         initial_bolo !! name = Some v_bolo → initial_temp !! name = Some v_temp →
         initial !! name = Some v_temp)
    ∧ (∀ name v_bolo v_temp,
         limits_bolo !! name = Some v_bolo → limits_temp !! name = Some v_temp →
         limits !! name = Some v_temp).
Proof.
  intros Hb Hte Hib Hit Hlb Hlt.
  exists (dict_or initial_bolo initial_temp), (dict_or limits_bolo limits_temp).
  split_and!.
  - unfold general._initial_guesses. rewrite Hb. cbn [mbind option_bind].
    rewrite Hib. cbn [mbind option_bind]. rewrite Hte. cbn [mbind option_bind].
    by rewrite Hit.
  - unfold general._limits. rewrite Hb. cbn [mbind option_bind].
    rewrite Hlb. cbn [mbind option_bind]. rewrite Hte. cbn [mbind option_bind].
    by rewrite Hlt.
  - intros name. apply dict_or_lookup.
  - intros name. apply dict_or_lookup.
  - intros name v_bolo v_temp _ Ht. rewrite dict_or_lookup. unfold second_wins.
    by rewrite Ht.
  - intros name v_bolo v_temp _ Ht. rewrite dict_or_lookup. unfold second_wins.
    by rewrite Ht.
Qed.

(** Evaluation of the bolometric guesses and limits on a two-point light
    curve. *)
Ltac eval_floats :=
  repeat first
    [ rewrite Rmax_right by lra | rewrite Rmax_left by lra
    | rewrite Rmin_right by lra | rewrite Rmin_left by lra
    | rewrite decide_True by lra | rewrite decide_False by lra
    | rewrite bool_decide_eq_true_2 by lra | rewrite bool_decide_eq_false_2 by lra ].

Lemma bazin_initial_guesses_two_points (band : list string) :
  bolo.bazin_initial_guesses false [1; 2]%R [1; 3]%R band
  = Some (<["fall_time"%string := 0.1%R]> (<["rise_time"%string := 0.1%R]>
          (<["amplitude"%string := 3%R]> (<["reference_time"%string := 2%R]> ∅)))).
Proof.
  unfold bolo.bazin_initial_guesses, np.argmax, np.max.
  cbn [foldl mbind option_bind np.first_index]. eval_floats.
  reflexivity.
Qed.

Lemma bazin_limits_two_points (band : list string) :
  bolo.bazin_limits false [1; 2]%R [1; 3]%R band
  = Some (<["fall_time"%string := (1e-4, 10 * (2 - 1))%R]>
         (<["rise_time"%string := (1e-4, 10 * (2 - 1))%R]>
         (<["amplitude"%string := (0, 10 * 3)%R]>
         (<["reference_time"%string := (1 - 10 * (2 - 1), 2 + 10 * (2 - 1))%R]> ∅)))).
Proof.
  unfold bolo.bazin_limits, np.ptp, np.max, np.min.
  cbn [foldl mbind option_bind]. eval_floats.
  reflexivity.
Qed.

Lemma merged_guesses_temperature_wins_witness :
  ∃ initial limits,
    general._initial_guesses bolo.bolometric_dict examples.temperature_dict_shifted
      examples.bazin_shifted [1; 2]%R [1; 3]%R ["g"; "r"]%string = Some initial
    ∧ general._limits bolo.bolometric_dict examples.temperature_dict_shifted
        examples.bazin_shifted [1; 2]%R [1; 3]%R ["g"; "r"]%string = Some limits
    ∧ initial !! "reference_time"%string = Some 0%R
    ∧ limits !! "reference_time"%string = Some (-1, 1)%R.
Proof.
  destruct (merged_guesses_temperature_wins
              bolo.bolometric_dict examples.temperature_dict_shifted
              examples.bazin_shifted bolo.bazin_entry examples.shifted_entry
              [1; 2]%R [1; 3]%R ["g"; "r"]%string _ _ _ _
              eq_refl eq_refl
              (bazin_initial_guesses_two_points _) eq_refl
              (bazin_limits_two_points _) eq_refl)
    as (initial & limits & Hi & Hl & _ & _ & Hgi & Hgl).
  exists initial, limits. split_and!; [done|done|..].
  - eapply Hgi; reflexivity.
  - eapply Hgl; reflexivity.
Defined.

(** C1, as the spec has it, fails: with a temperature strategy that guesses
    the common parameter [reference_time], the bolometric guess 2 and the
    bolometric limits (-9, 12) of [reference_time] are replaced by the guess
    0 and the limits (-1, 1) of the temperature strategy. *)
Lemma bolometric_guess_overridden :
  ∃ initial_bolo initial_temp initial limits_bolo limits_temp limits,
    bolo.bazin_initial_guesses false [1; 2]%R [1; 3]%R ["g"; "r"]%string = Some initial_bolo
    ∧ examples.shifted_initial_guesses [1; 2]%R [1; 3]%R ["g"; "r"]%string = initial_temp
    ∧ general._initial_guesses bolo.bolometric_dict examples.temperature_dict_shifted
        examples.bazin_shifted [1; 2]%R [1; 3]%R ["g"; "r"]%string = Some initial
    ∧ bolo.bazin_limits false [1; 2]%R [1; 3]%R ["g"; "r"]%string = Some limits_bolo
    ∧ examples.shifted_limits [1; 2]%R [1; 3]%R ["g"; "r"]%string = limits_temp
    ∧ general._limits bolo.bolometric_dict examples.temperature_dict_shifted
        examples.bazin_shifted [1; 2]%R [1; 3]%R ["g"; "r"]%string = Some limits
    ∧ initial_bolo !! "reference_time"%string = Some 2%R
    ∧ initial_temp !! "reference_time"%string = Some 0%R
    ∧ initial !! "reference_time"%string = Some 0%R
    ∧ initial !! "reference_time"%string ≠ initial_bolo !! "reference_time"%string
    ∧ limits_bolo !! "reference_time"%string = Some (1 - 10 * (2 - 1), 2 + 10 * (2 - 1))%R
    ∧ limits_temp !! "reference_time"%string = Some (-1, 1)%R
    ∧ limits !! "reference_time"%string = Some (-1, 1)%R
    ∧ limits !! "reference_time"%string ≠ limits_bolo !! "reference_time"%string.
Proof.
  eexists _, _, _, _, _, _.
  split; [apply bazin_initial_guesses_two_points|].
  split; [reflexivity|].
  split.
  { unfold general._initial_guesses.
    change (bolo.bolometric_dict !! general.bolometric examples.bazin_shifted)
      with (Some bolo.bazin_entry).
    cbn [mbind option_bind bolo.initial_guesses bolo.bazin_entry].
    change (general.with_baseline examples.bazin_shifted) with false.
    rewrite bazin_initial_guesses_two_points. reflexivity. }
  split; [apply bazin_limits_two_points|].
  split; [reflexivity|].
  split.
  { unfold general._limits.
    change (bolo.bolometric_dict !! general.bolometric examples.bazin_shifted)
      with (Some bolo.bazin_entry).
    cbn [mbind option_bind bolo.limits bolo.bazin_entry].
    change (general.with_baseline examples.bazin_shifted) with false.
    rewrite bazin_limits_two_points. reflexivity. }
  split_and!; try reflexivity.
  - change (Some 0%R ≠ Some 2%R). intros [=H]. lra.
  - change (Some (-1, 1)%R ≠ Some (1 - 10 * (2 - 1), 2 + 10 * (2 - 1))%R).
    intros [=H _]. lra.
Qed.

(** ** The strategies of the sources give no common name twice *)

(** The guesses and the limits of [sigmoid] and [bazin] are under the names
    of bolometric parameters, those of [constant] and [logistic] under the
    names [T], [Tmin], [Tmax] and [k_sig]: with the strategies of the
    sources the merge never meets a name in both dictionaries. *)

Ltac names_of_inserts H :=
  apply elem_of_dom_2 in H;
  repeat rewrite dom_insert_L in H; rewrite dom_empty_L in H;
  set_unfold in H; set_unfold; intuition (subst; auto).

Lemma bolometric_guess_names (b : bolo.entry) (baseline : bool) (t m : list R)
    (band : list string) (d : gmap string R) (name : string) (v : R) :
  b = bolo.sigmoid_entry ∨ b = bolo.bazin_entry →
  bolo.initial_guesses b baseline t m band = Some d →
  d !! name = Some v → name ∈ bolo.bazin_parameter_names.
Proof.
  intros [-> | ->] Hd Hv; cbn [bolo.initial_guesses bolo.sigmoid_entry bolo.bazin_entry] in Hd.
  - unfold bolo.sigmoid_initial_guesses in Hd.
    destruct (if baseline then _ else _); [|done]. cbn [mbind option_bind] in Hd.
    destruct (np.argmax m); [|done]. cbn [mbind option_bind] in Hd.
    destruct (t !! _); [|done]. injection Hd as <-.
    unfold bolo.bazin_parameter_names. names_of_inserts Hv.
  - unfold bolo.bazin_initial_guesses in Hd.
    destruct (if baseline then _ else _); [|done]. cbn [mbind option_bind] in Hd.
    destruct (np.argmax m); [|done]. cbn [mbind option_bind] in Hd.
    destruct (t !! _); [|done]. injection Hd as <-.
    unfold bolo.bazin_parameter_names. names_of_inserts Hv.
Qed.

Lemma temperature_guess_names (te : temp.entry) (t m : list R)
    (band : list string) (d : gmap string R) (name : string) (v : R) :
  te = temp.constant_entry ∨ te = temp.logistic_entry →
  temp.initial_guesses te t m band = Some d →
  d !! name = Some v → name ∈ temperature_only_names.
Proof.
  intros [-> | ->] [= <-] Hv; unfold temperature_only_names.
  - unfold temp.constant_initial_guesses in Hv. names_of_inserts Hv.
  - unfold temp.logistic_initial_guesses in Hv. names_of_inserts Hv.
Qed.

Lemma shipped_guesses_share_no_name (b : bolo.entry) (te : temp.entry) (baseline : bool)
    (t m : list R) (band : list string) (initial_bolo initial_temp : gmap string R)
    (name : string) :
  b = bolo.sigmoid_entry ∨ b = bolo.bazin_entry →
  te = temp.constant_entry ∨ te = temp.logistic_entry →
  bolo.initial_guesses b baseline t m band = Some initial_bolo →
  temp.initial_guesses te t m band = Some initial_temp →
  initial_bolo !! name = None ∨ initial_temp !! name = None.
Proof.
  intros Hb Hte Hib Hit.
  destruct (initial_bolo !! name) as [vb|] eqn:Hvb; [|by left].
  destruct (initial_temp !! name) as [vt|] eqn:Hvt; [|by right].
  pose proof (bolometric_guess_names _ _ _ _ _ _ _ _ Hb Hib Hvb) as H1.
  pose proof (temperature_guess_names _ _ _ _ _ _ _ Hte Hit Hvt) as H2.
  exfalso. unfold bolo.bazin_parameter_names in H1. unfold temperature_only_names in H2.
  set_unfold. intuition (subst; done).
Qed.

Lemma bolometric_limit_names (b : bolo.entry) (baseline : bool) (t m : list R)
    (band : list string) (d : gmap string (R * R)) (name : string) (v : R * R) :
  b = bolo.sigmoid_entry ∨ b = bolo.bazin_entry →
  bolo.limits b baseline t m band = Some d →
  d !! name = Some v → name ∈ bolo.bazin_parameter_names.
Proof.
  intros [-> | ->] Hd Hv; cbn [bolo.limits bolo.sigmoid_entry bolo.bazin_entry] in Hd.
  - unfold bolo.sigmoid_limits in Hd.
    destruct (np.ptp t); [|done]. cbn [mbind option_bind] in Hd.
    destruct (if baseline then _ else _); [|done]. cbn [mbind option_bind] in Hd.
    destruct (np.min t); [|done]. cbn [mbind option_bind] in Hd.
    destruct (np.max t); [|done]. injection Hd as <-.
    unfold bolo.bazin_parameter_names. names_of_inserts Hv.
  - unfold bolo.bazin_limits in Hd.
    destruct (np.ptp t); [|done]. cbn [mbind option_bind] in Hd.
    destruct (if baseline then _ else _); [|done]. cbn [mbind option_bind] in Hd.
    destruct (np.min t); [|done]. cbn [mbind option_bind] in Hd.
    destruct (np.max t); [|done]. injection Hd as <-.
    unfold bolo.bazin_parameter_names. names_of_inserts Hv.
Qed.

Lemma temperature_limit_names (te : temp.entry) (t m : list R)
    (band : list string) (d : gmap string (R * R)) (name : string) (v : R * R) :
  te = temp.constant_entry ∨ te = temp.logistic_entry →
  temp.limits te t m band = Some d →
  d !! name = Some v → name ∈ temperature_only_names.
Proof.
  intros [-> | ->] Hd Hv; unfold temperature_only_names;
    cbn [temp.limits temp.constant_entry temp.logistic_entry] in Hd.
  - injection Hd as <-. unfold temp.constant_limits in Hv. names_of_inserts Hv.
  - unfold temp.logistic_limits in Hd.
    destruct (np.ptp t); [|done]. injection Hd as <-. names_of_inserts Hv.
Qed.

Lemma shipped_limits_share_no_name (b : bolo.entry) (te : temp.entry) (baseline : bool)
    (t m : list R) (band : list string) (limits_bolo limits_temp : gmap string (R * R))
    (name : string) :
  b = bolo.sigmoid_entry ∨ b = bolo.bazin_entry →
  te = temp.constant_entry ∨ te = temp.logistic_entry →
  bolo.limits b baseline t m band = Some limits_bolo →
  temp.limits te t m band = Some limits_temp →
  limits_bolo !! name = None ∨ limits_temp !! name = None.
Proof.
  intros Hb Hte Hlb Hlt.
  destruct (limits_bolo !! name) as [vb|] eqn:Hvb; [|by left].
  destruct (limits_temp !! name) as [vt|] eqn:Hvt; [|by right].
  pose proof (bolometric_limit_names _ _ _ _ _ _ _ _ Hb Hlb Hvb) as H1.
  pose proof (temperature_limit_names _ _ _ _ _ _ _ Hte Hlt Hvt) as H2.
  exfalso. unfold bolo.bazin_parameter_names in H1. unfold temperature_only_names in H2.
  set_unfold. intuition (subst; done).
Qed.

(** ** The peak time *)

(** C3. [peak_time] returns the entry of the parameter vector at the index
    of [reference_time]; it is the same for every fit and every parameter
    vector that agree on this index and on this entry, whatever the
    bolometric strategy and the other entries are. *)
Theorem peak_time_reference_time (self : general.RainbowGeneralFit) (params : list R) (i : nat) :
  general.attrs (general.p self) !! "reference_time"%string = Some i →
  general.peak_time self params = params !! i
  ∧ ∀ (self' : general.RainbowGeneralFit) (params' : list R),
      general.attrs (general.p self') !! "reference_time"%string = Some i →
      params' !! i = params !! i →
      general.peak_time self' params' = general.peak_time self params.
Proof.
  intros Hi. unfold general.peak_time. rewrite Hi. split; [done|].
  intros self' params' Hi' Hp. by rewrite Hi'.
Qed.

Lemma peak_time_reference_time_witness :
  general.peak_time examples.bazin_logistic examples.params_bazin_logistic = Some 60000%R
  ∧ general.peak_time examples.sigmoid_logistic [60000; 2; 7; 0; 4000; 9000; 1; 0; 0]%R
    = general.peak_time examples.bazin_logistic examples.params_bazin_logistic.
Proof.
  destruct (peak_time_reference_time examples.bazin_logistic
              examples.params_bazin_logistic 0 eq_refl) as [Hpeak Hsame].
  split; [exact Hpeak|].
  apply Hsame; reflexivity.
Defined.

(** ** Updates of the parameter vector *)

Section updates.
Context (self : general.RainbowGeneralFit).
Implicit Types (params : list R) (name : string) (f : R → R).

Lemma update_item_Some params i f :
  i < length params →
  ∃ x, params !! i = Some x ∧ general.update_item params i f = Some (<[i := f x]> params).
Proof.
  intros [x Hx]%lookup_lt_is_Some_2. exists x. split; [done|].
  unfold general.update_item. by rewrite Hx.
Qed.

(** An update through an attribute succeeds when the attribute, if there is
    one, points into the vector. *)
Lemma update_attr_is_Some params name f :
  (∀ i, general.attrs (general.p self) !! name = Some i → i < length params) →
  is_Some (general.update_attr self name f params).
Proof.
  intros Hin. unfold general.update_attr.
  destruct (general.attrs (general.p self) !! name) as [i|]; [|done].
  destruct (update_item_Some params i f) as (x & _ & ->); eauto.
Qed.

(** It keeps the length and every entry but the one of the attribute. *)
Lemma update_attr_frame params params' name f :
  general.update_attr self name f params = Some params' →
  length params' = length params
  ∧ ∀ j, general.attrs (general.p self) !! name ≠ Some j → params' !! j = params !! j.
Proof.
  unfold general.update_attr, general.update_item.
  destruct (general.attrs (general.p self) !! name) as [i|].
  - destruct (params !! i) as [x|]; [|done]. intros [= <-].
    split; [apply length_insert|].
    intros j Hj. apply list_lookup_insert_ne. congruence.
  - by intros [= <-].
Qed.

End updates.

(** ** Normalisation of the amplitude *)

(** C7. With an amplitude parameter in the vector and a nonzero average
    frequency, [_normalize_bolometric_flux] followed by
    [_denormalize_bolometric_flux] gives the vector back, and each of the
    two, on any vector, keeps the length and every entry but the
    amplitude. *)
Theorem normalize_denormalize_roundtrip
    (self : general.RainbowGeneralFit) (params : list R) (i : nat) :
  general.average_nu self ≠ 0%R →
  general.attrs (general.p self) !! "amplitude"%string = Some i →
  i < length params →
  (∃ normalized,
     general._normalize_bolometric_flux self params = Some normalized
     ∧ general._denormalize_bolometric_flux self normalized = Some params)
  ∧ (∀ q q', general._normalize_bolometric_flux self q = Some q' →
       length q' = length q ∧ ∀ j, j ≠ i → q' !! j = q !! j)
  ∧ (∀ q q', general._denormalize_bolometric_flux self q = Some q' →
       length q' = length q ∧ ∀ j, j ≠ i → q' !! j = q !! j).
Proof.
  intros Hnu Hi Hlen. split_and!.
  - unfold general._normalize_bolometric_flux, general._denormalize_bolometric_flux,
      general.update_attr. rewrite Hi.
    destruct (update_item_Some params i (λ x, x / general.average_nu self)%R Hlen)
      as (x & Hx & ->).
    eexists. split; [done|].
    unfold general.update_item.
    rewrite list_lookup_insert_eq by done. cbn [mbind option_bind].
    rewrite list_insert_insert_eq.
    replace (x / general.average_nu self * general.average_nu self)%R with x
      by (field; done).
    by rewrite list_insert_id.
  - intros q q' Hq. apply update_attr_frame in Hq as [Hl Hf]. split; [done|].
    intros j Hj. apply Hf. rewrite Hi. congruence.
  - intros q q' Hq. apply update_attr_frame in Hq as [Hl Hf]. split; [done|].
    intros j Hj. apply Hf. rewrite Hi. congruence.
Qed.

Lemma normalize_denormalize_roundtrip_witness :
  ∃ normalized,
    general._normalize_bolometric_flux examples.bazin_logistic
      examples.params_bazin_logistic = Some normalized
    ∧ general._denormalize_bolometric_flux examples.bazin_logistic normalized
      = Some examples.params_bazin_logistic.
Proof.
  refine (proj1 (normalize_denormalize_roundtrip examples.bazin_logistic
                   examples.params_bazin_logistic 1 _ eq_refl _)).
  - cbv [general.average_nu examples.bazin_logistic]. lra.
  - cbn. lia.
Defined.

(** ** Unscaling *)

Section unscaling.
Context (self : general.RainbowGeneralFit) (params : list R).
Context (Hin : ∀ name i,
  general.attrs (general.p self) !! name = Some i → i < length params).

Lemma unscale_frame_start : unscale_frame self params params.
Proof. by split. Qed.

Lemma unscale_frame_step (q : list R) (name : string) (f : R → R) :
  name ∈ scaled_names →
  unscale_frame self params q →
  ∃ q', general.update_attr self name f q = Some q' ∧ unscale_frame self params q'.
Proof.
  intros Hname [Hlen Hframe].
  destruct (update_attr_is_Some self q name f) as [q' Hq'].
  { intros i Hi. rewrite Hlen. eauto. }
  exists q'. split; [done|].
  apply update_attr_frame in Hq' as [Hlen' Hframe'].
  split; [congruence|].
  intros j Hj. rewrite Hframe' by auto. auto.
Qed.

End unscaling.

(** C6. [_unscale_parameters] returns a vector of the same length when the
    attributes of the registry point into the vector, and an entry that is
    not at the index of [reference_time], [rise_time], [fall_time], [k_sig]
    or [amplitude] is the one of the input. *)
Theorem unscale_parameters_frame
    (self : general.RainbowGeneralFit) (params : list R)
    (t_scaler : Scaler.t) (m_scaler : MultiBandScaler.t) :
  (∀ name i, general.attrs (general.p self) !! name = Some i → i < length params) →
  ∃ params',
    general._unscale_parameters self params t_scaler m_scaler = Some params'
    ∧ length params' = length params
    ∧ ∀ j, (∀ name, name ∈ scaled_names →
                    general.attrs (general.p self) !! name ≠ Some j) →
           params' !! j = params !! j.
Proof.
  intros Hin. unfold general._unscale_parameters, general._denormalize_bolometric_flux.
  pose proof (unscale_frame_start self params) as H0.
  edestruct (unscale_frame_step self params Hin params "amplitude")
    as (q1 & -> & H1); [set_solver|done|]. cbn [mbind option_bind].
  edestruct (unscale_frame_step self params Hin q1 "reference_time")
    as (q2 & -> & H2); [set_solver|done|]. cbn [mbind option_bind].
  edestruct (unscale_frame_step self params Hin q2 "rise_time")
    as (q3 & -> & H3); [set_solver|done|]. cbn [mbind option_bind].
  edestruct (unscale_frame_step self params Hin q3 "fall_time")
    as (q4 & -> & H4); [set_solver|done|]. cbn [mbind option_bind].
  edestruct (unscale_frame_step self params Hin q4 "k_sig")
    as (q5 & -> & H5); [set_solver|done|]. cbn [mbind option_bind].
  edestruct (unscale_frame_step self params Hin q5 "amplitude")
    as (q6 & -> & H6); [set_solver|done|]. cbn [mbind option_bind].
  exists q6. split; [done|]. exact H6.
Qed.

Lemma unscale_parameters_frame_witness :
  ∃ params',
    general._unscale_parameters examples.bazin_logistic
      [0.5; 1e-15; 0.0025; 0.015; 5000; 15000; 0.002; 0.5; 0.25]%R
      examples.t_scaler examples.m_scaler = Some params'
    ∧ length params' = 9
    ∧ ∀ j, (∀ name, name ∈ scaled_names →
                    general.attrs (general.p examples.bazin_logistic) !! name ≠ Some j) →
           params' !! j
           = [0.5; 1e-15; 0.0025; 0.015; 5000; 15000; 0.002; 0.5; 0.25]%R !! j.
Proof.
  apply (unscale_parameters_frame examples.bazin_logistic
           [0.5; 1e-15; 0.0025; 0.015; 5000; 15000; 0.002; 0.5; 0.25]%R
           examples.t_scaler examples.m_scaler).
  intros name i Hi.
  apply (elem_of_list_to_map_2 (M := gmap string)) in Hi.
  cbn [length].
  repeat (apply elem_of_cons in Hi as [[= _ <-]|Hi]; [lia|]).
  by apply elem_of_nil in Hi.
Defined.

(** ** Baseline guesses *)

Lemma select_band_flux (m : list R) (band : list string) (b : string) :
  np.select m (general.band_eq band b) = band_flux m band b.
Proof.
  unfold band_flux, general.band_eq.
  revert band. induction m as [|x m IH]; intros [|c band]; try done.
  cbn [fmap list_fmap np.select zip zip_with]. rewrite filter_cons. cbn [fst].
  destruct (decide (c = b)) as [Hc|Hc].
  - rewrite bool_decide_eq_true_2 by done. cbn [fmap list_fmap snd]. f_equal. apply IH.
  - rewrite bool_decide_eq_false_2 by done. apply IH.
Qed.

Lemma getmask_band_eq (m : list R) (band : list string) (b : string) :
  length band = length m →
  np.getmask m (general.band_eq band b) = Some (np.select m (general.band_eq band b)).
Proof.
  intros Hlen. unfold np.getmask. rewrite decide_True; [done|].
  unfold general.band_eq. by rewrite length_fmap.
Qed.

Section baselines.
Context (self : general.RainbowGeneralFit) (m : list R) (band : list string).
Context (Hlen : length band = length m).

#[local] Abbreviation name := (general.baseline_parameter_name (general.p self)).

Lemma baseline_comprehension_lookup (names : list string) (d : gmap string (option R)) :
  ∃ guesses,
    general.baseline_comprehension self m band names d = Some guesses
    ∧ ∀ b, (b ∈ names ∨ d !! name b = Some (baseline_guess m band b)) →
           (∀ b', b' ∈ names → name b' = name b → b' = b) →
           guesses !! name b = Some (baseline_guess m band b).
Proof.
  revert d. induction names as [|b0 names IH]; intros d.
  - exists d. split; [done|]. intros b [Hb|Hb] _; [by apply elem_of_nil in Hb|done].
  - cbn [general.baseline_comprehension].
    rewrite getmask_band_eq by done. cbn [mbind option_bind].
    destruct (IH (<[name b0 := baseline_guess m band b0]> d)) as (guesses & Hrun & Hlook).
    exists guesses. split; [exact Hrun|].
    intros b Hb Hinj. apply Hlook.
    + destruct Hb as [[->|Hb]%elem_of_cons|Hb].
      * right. apply lookup_insert_eq.
      * by left.
      * right. destruct (decide (name b0 = name b)) as [Heq|Hne].
        -- rewrite (Hinj b0) by (done || apply elem_of_cons; by left).
           apply lookup_insert_eq.
        -- by rewrite lookup_insert_ne.
    + intros b' Hb'. apply Hinj, elem_of_cons. by right.
Qed.

End baselines.

(** C8. When the flux and the band arrays have the same length and the
    bands have different baseline parameter names,
    [_baseline_initial_guesses] gives, for every band of the fit, under the
    name of its baseline parameter, the median of the flux values of the
    observations in this band. *)
Theorem baseline_guess_is_band_median
    (self : general.RainbowGeneralFit) (t m : list R) (band : list string) :
  length band = length m →
  (∀ b1 b2, b1 ∈ general.bands_names self → b2 ∈ general.bands_names self →
            general.baseline_parameter_name (general.p self) b1
            = general.baseline_parameter_name (general.p self) b2 → b1 = b2) →
  ∃ guesses,
    general._baseline_initial_guesses self t m band = Some guesses
    ∧ ∀ b, b ∈ general.bands_names self →
           guesses !! general.baseline_parameter_name (general.p self) b
           = Some (np.median (band_flux m band b)).
Proof.
  intros Hlen Hinj. unfold general._baseline_initial_guesses.
  destruct (baseline_comprehension_lookup self m band Hlen (general.bands_names self) ∅)
    as (guesses & Hrun & Hlook).
  exists guesses. split; [exact Hrun|].
  intros b Hb. rewrite <- select_band_flux. apply Hlook; [by left|].
  intros b' Hb'. by apply Hinj.
Qed.

Lemma baseline_guess_is_band_median_witness :
  ∃ guesses,
    general._baseline_initial_guesses examples.bazin_logistic
      [59990; 60000; 60010]%R [1; 5; 3]%R ["g"; "r"; "g"]%string = Some guesses
    ∧ guesses !! "baseline_g"%string = Some (np.median [1; 3]%R)
    ∧ guesses !! "baseline_r"%string = Some (np.median [5]%R).
Proof.
  destruct (baseline_guess_is_band_median examples.bazin_logistic
              [59990; 60000; 60010]%R [1; 5; 3]%R ["g"; "r"; "g"]%string)
    as (guesses & Hrun & Hlook).
  - reflexivity.
  - intros b1 b2 Hb1 Hb2 Hname.
    repeat (apply elem_of_cons in Hb1 as [->|Hb1]);
      repeat (apply elem_of_cons in Hb2 as [->|Hb2]);
      try done; by (apply elem_of_nil in Hb1 || apply elem_of_nil in Hb2).
  - exists guesses. split; [exact Hrun|]. split.
    + apply (Hlook "g"%string). apply elem_of_cons. by left.
    + apply (Hlook "r"%string). apply elem_of_cons. right. apply elem_of_cons. by left.
Defined.

(** The median of three and of four values. *)
Example median_odd : np.median [3; 1; 2]%R = Some 2%R.
Proof.
  unfold np.median, np.sort. cbn [foldr np.insert_sorted]. unfold np.le.
  eval_floats. cbn [np.insert_sorted]. unfold np.le. eval_floats. reflexivity.
Qed.

Example median_even : np.median [4; 1; 3; 2]%R = Some ((2 + 3) / 2)%R.
Proof.
  unfold np.median, np.sort. cbn [foldr np.insert_sorted]. unfold np.le.
  repeat (eval_floats; cbn [np.insert_sorted]; unfold np.le). reflexivity.
Qed.

(** ** Extrema of an array *)

Section extrema.
#[local] Open Scope R_scope.

Lemma foldl_Rmax_ge (x : R) (a : list R) :
  x <= foldl Rmax x a ∧ ∀ y, y ∈ a → y <= foldl Rmax x a.
Proof.
  revert x. induction a as [|z a IH]; intros x; cbn [foldl].
  - split; [lra|]. intros y Hy. by apply elem_of_nil in Hy.
  - destruct (IH (Rmax x z)) as [H1 H2].
    pose proof (Rmax_l x z). pose proof (Rmax_r x z).
    split; [lra|]. intros y [->|Hy]%elem_of_cons; [lra|auto].
Qed.

Lemma foldl_Rmin_le (x : R) (a : list R) :
  foldl Rmin x a <= x ∧ ∀ y, y ∈ a → foldl Rmin x a <= y.
Proof.
  revert x. induction a as [|z a IH]; intros x; cbn [foldl].
  - split; [lra|]. intros y Hy. by apply elem_of_nil in Hy.
  - destruct (IH (Rmin x z)) as [H1 H2].
    pose proof (Rmin_l x z). pose proof (Rmin_r x z).
    split; [lra|]. intros y [->|Hy]%elem_of_cons; [lra|auto].
Qed.

Lemma foldl_Rmax_elem (x : R) (a : list R) : foldl Rmax x a ∈ x :: a.
Proof.
  revert x. induction a as [|z a IH]; intros x; cbn [foldl].
  - apply elem_of_cons. by left.
  - specialize (IH (Rmax x z)). apply elem_of_cons in IH as [IH|IH].
    + rewrite IH. unfold Rmax. destruct (Rle_dec x z).
      * apply elem_of_cons. right. apply elem_of_cons. by left.
      * apply elem_of_cons. by left.
    + apply elem_of_cons. right. apply elem_of_cons. by right.
Qed.

Lemma max_elem (a : list R) (hi : R) : np.max a = Some hi → hi ∈ a.
Proof. destruct a as [|x a]; [done|]. intros [= <-]. apply foldl_Rmax_elem. Qed.

Lemma max_ge (a : list R) (hi y : R) : np.max a = Some hi → y ∈ a → y <= hi.
Proof.
  destruct a as [|x a]; [done|]. intros [= <-] [->|Hy]%elem_of_cons.
  - apply (proj1 (foldl_Rmax_ge _ _)).
  - by apply (proj2 (foldl_Rmax_ge _ _)).
Qed.

Lemma min_le (a : list R) (lo y : R) : np.min a = Some lo → y ∈ a → lo <= y.
Proof.
  destruct a as [|x a]; [done|]. intros [= <-] [->|Hy]%elem_of_cons.
  - apply (proj1 (foldl_Rmin_le _ _)).
  - by apply (proj2 (foldl_Rmin_le _ _)).
Qed.

Lemma first_index_lt (v : R) (a : list R) : v ∈ a → (np.first_index v a < length a)%nat.
Proof.
  induction a as [|x a IH]; [by intros ?%elem_of_nil|].
  intros Hv. cbn [np.first_index length]. destruct (decide (x = v)); [lia|].
  apply elem_of_cons in Hv as [->|Hv]; [done|]. specialize (IH Hv). lia.
Qed.

(** [np.argmax] of a non-empty array is a position of the array. *)
Lemma argmax_lt (a : list R) (i : nat) : np.argmax a = Some i → (i < length a)%nat.
Proof.
  unfold np.argmax. destruct (np.max a) as [hi|] eqn:Hhi; [|done].
  intros [= <-]. by apply first_index_lt, max_elem.
Qed.

End extrema.

(** ** Guesses and limits of [bazin] *)

Section bazin_guesses.
#[local] Open Scope R_scope.

Lemma ptp_inv (a : list R) (d : R) :
  np.ptp a = Some d →
  ∃ hi lo, np.max a = Some hi ∧ np.min a = Some lo ∧ d = hi - lo ∧ lo <= hi.
Proof.
  unfold np.ptp. destruct (np.max a) as [hi|] eqn:Hhi; [|done].
  destruct (np.min a) as [lo|] eqn:Hlo; [|done]. intros [= <-].
  exists hi, lo. split_and!; try done.
  pose proof (max_elem a hi Hhi) as Hel.
  pose proof (min_le a lo hi Hlo Hel). done.
Qed.

Lemma amplitude_inv (baseline : bool) (m : list R) (A : R) :
  (if baseline then np.ptp m else np.max m) = Some A → ∃ hi, np.max m = Some hi.
Proof.
  destruct baseline; [|eauto]. intros (hi & _ & Hhi & _)%ptp_inv. eauto.
Qed.

End bazin_guesses.

(** C10. For arrays [t] and [m] of the same length, with [np.ptp(t) > 0.01]
    and a positive flux amplitude ([np.ptp(m)] with a baseline, [np.max(m)]
    without), [bazin_initial_guesses] and [bazin_limits] both return, and the
    guess of each of the four parameters lies within its limits. *)
Theorem bazin_guess_within_limits
    (baseline : bool) (t m : list R) (band : list string) (t_amplitude A : R) :
  length t = length m →
  np.ptp t = Some t_amplitude → (0.01 < t_amplitude)%R →
  (if baseline then np.ptp m else np.max m) = Some A → (0 < A)%R →
  ∃ initial limits,
    bolo.bazin_initial_guesses baseline t m band = Some initial
    ∧ bolo.bazin_limits baseline t m band = Some limits
    ∧ ∀ name, name ∈ bolo.bazin_parameter_names →
        ∃ v low high,
          initial !! name = Some v ∧ limits !! name = Some (low, high)
          ∧ (low <= v <= high)%R.
Proof.
  intros Hlen Hpt Ht HA HApos.
  destruct (amplitude_inv baseline m A HA) as [m_hi Hmax].
  destruct (ptp_inv t t_amplitude Hpt) as (t_hi & t_lo & Htmax & Htmin & -> & Hle).
  assert (∃ i, np.argmax m = Some i) as [i Hi].
  { unfold np.argmax. rewrite Hmax. eauto. }
  pose proof (argmax_lt m i Hi) as Hlt. rewrite <- Hlen in Hlt.
  apply lookup_lt_is_Some_2 in Hlt as [t_i Hti].
  assert (t_i ∈ t) as Hel by (apply list_elem_of_lookup; eauto).
  pose proof (max_ge t t_hi t_i Htmax Hel) as Hup.
  pose proof (min_le t t_lo t_i Htmin Hel) as Hlow.
  unfold bolo.bazin_initial_guesses, bolo.bazin_limits.
  rewrite HA, Hi, Hpt, Htmin, Htmax. cbn [mbind option_bind]. rewrite Hti.
  cbn [mbind option_bind].
  eexists _, _. split; [done|]. split; [done|].
  intros name Hname. unfold bolo.bazin_parameter_names in Hname.
  repeat (apply elem_of_cons in Hname as [->|Hname]);
    [..|by apply elem_of_nil in Hname];
    eexists _, _, _; (split; [reflexivity|]); (split; [reflexivity|]); lra.
Qed.

Lemma bazin_guess_within_limits_witness :
  ∃ initial limits,
    bolo.bazin_initial_guesses false [1; 2]%R [1; 3]%R ["g"; "r"]%string = Some initial
    ∧ bolo.bazin_limits false [1; 2]%R [1; 3]%R ["g"; "r"]%string = Some limits
    ∧ ∀ name, name ∈ bolo.bazin_parameter_names →
        ∃ v low high,
          initial !! name = Some v ∧ limits !! name = Some (low, high)
          ∧ (low <= v <= high)%R.
Proof.
  apply (bazin_guess_within_limits false [1; 2]%R [1; 3]%R ["g"; "r"]%string
           (Rmax 1 2 - Rmin 1 2)%R (Rmax 1 3)).
  - reflexivity.
  - reflexivity.
  - rewrite Rmax_right, Rmin_left by lra. lra.
  - reflexivity.
  - rewrite Rmax_right by lra. lra.
Defined.

(** * Further properties of the evaluation functions *)

Section logistic_edges.
#[local] Open Scope R_scope.

(** X1. With [k_sig <= 0] the middle mask of [logistic] is empty and the two
    outer masks overlap, the last assignment winning: the result is the
    step from [Tmin] to [Tmax] at [dt = 100 * k_sig], and the exponential is
    not evaluated. *)
Theorem logistic_nonpositive_k_sig (t : list R) (t0 Tmin Tmax k_sig : R) :
  k_sig <= 0 →
  temp.logistic t t0 Tmin Tmax k_sig
  = Some ((λ x, if decide (100 * k_sig <= x - t0) then Tmax else Tmin) <$> t).
Proof.
  intros Hk. rewrite logistic_elementwise. f_equal. apply list_fmap_ext.
  intros _ x _. unfold pointwise.logistic. case_masks; case_decide; (done || lra).
Qed.

Lemma logistic_nonpositive_k_sig_witness :
  temp.logistic [-1; 0; 1] 0 4000 10000 0
  = Some ((λ x, if decide (100 * 0 <= x - 0) then 10000 else 4000) <$> [-1; 0; 1]).
Proof. apply (logistic_nonpositive_k_sig [-1; 0; 1] 0 4000 10000 0). lra. Defined.

(** X2. With equal limit temperatures [logistic] is the constant
    temperature, for every [k_sig]: the three masks leave no element at the
    initial zero. *)
Theorem logistic_equal_limits_constant (t : list R) (t0 T k_sig : R) :
  temp.logistic t t0 T T k_sig = Some ((λ _, temp.constant t T) <$> t).
Proof.
  rewrite logistic_elementwise. f_equal. apply list_fmap_ext.
  intros _ x _. unfold pointwise.logistic, temp.logistic_expr, temp.constant.
  replace (T + (T - T) / (1 + exp ((x - t0) / k_sig))) with T
    by (unfold Rdiv; ring).
  case_masks; (done || lra).
Qed.

End logistic_edges.

Section bolometric_shape.
#[local] Open Scope R_scope.

Lemma sigmoid_expr_pos_den (rise_time dt : R) : 1 < exp (- dt / rise_time) + 1.
Proof. pose proof (exp_pos (- dt / rise_time)). lra. Qed.

Lemma sigmoid_expr_range (amplitude rise_time dt : R) :
  0 <= amplitude → 0 <= bolo.sigmoid_expr amplitude rise_time dt <= amplitude.
Proof.
  intros Ha. unfold bolo.sigmoid_expr.
  pose proof (sigmoid_expr_pos_den rise_time dt) as Hd.
  set (d := exp (- dt / rise_time) + 1) in *. clearbody d.
  assert (0 < / d <= 1) as [H0 H1].
  { split; [apply Rinv_0_lt_compat; lra|].
    rewrite <- Rinv_1. apply Rinv_le_contravar; lra. }
  unfold Rdiv. nra.
Qed.

Lemma sigmoid_expr_mono (amplitude rise_time dt1 dt2 : R) :
  0 <= amplitude → 0 < rise_time → dt1 <= dt2 →
  bolo.sigmoid_expr amplitude rise_time dt1 <= bolo.sigmoid_expr amplitude rise_time dt2.
Proof.
  intros Ha Hr Hdt. unfold bolo.sigmoid_expr, Rdiv.
  apply Rmult_le_compat_l; [done|].
  pose proof (exp_pos (- dt2 / rise_time)).
  apply Rinv_le_contravar; [lra|].
  apply Rplus_le_compat_r, exp_le.
  apply div_le; [done|]. unfold Rdiv. rewrite Rmult_assoc, Rinv_l by lra. lra.
Qed.

(** The denominator of [bazin] is above one of its exponentials, and above
    1. *)
Lemma bazin_den_gt_1 (rise_time fall_time dt : R) :
  0 < rise_time → 0 < fall_time →
  1 < exp (- dt / rise_time) + exp (dt / fall_time).
Proof.
  intros Hr Hf.
  pose proof (exp_pos (- dt / rise_time)). pose proof (exp_pos (dt / fall_time)).
  destruct (Rle_lt_dec 0 dt) as [Hdt|Hdt].
  - assert (0 <= dt / fall_time) as Hx by (apply div_ge; lra).
    pose proof (exp_le _ _ Hx) as He. rewrite exp_0 in He. lra.
  - assert (0 <= - dt / rise_time) as Hx by (apply div_ge; lra).
    pose proof (exp_le _ _ Hx) as He. rewrite exp_0 in He. lra.
Qed.

Lemma bazin_expr_range (amplitude rise_time fall_time dt : R) :
  0 <= amplitude → 0 < rise_time → 0 < fall_time →
  0 <= bolo.bazin_expr amplitude rise_time fall_time dt <= amplitude.
Proof.
  intros Ha Hr Hf. unfold bolo.bazin_expr.
  pose proof (bazin_den_gt_1 rise_time fall_time dt Hr Hf) as Hd.
  set (d := exp (- dt / rise_time) + exp (dt / fall_time)) in *. clearbody d.
  assert (0 < / d <= 1) as [H0 H1].
  { split; [apply Rinv_0_lt_compat; lra|].
    rewrite <- Rinv_1. apply Rinv_le_contravar; lra. }
  unfold Rdiv. nra.
Qed.

End bolometric_shape.

(** X3. For a non-negative amplitude and a positive rise time, [sigmoid]
    maps every time through one function that is non-decreasing and takes
    its values between 0 and the amplitude. *)
Theorem sigmoid_monotone_bounded (t : list R) (t0 amplitude rise_time : R) :
  (0 <= amplitude)%R → (0 < rise_time)%R →
  bolo.sigmoid t t0 amplitude rise_time
    = Some ((λ x, pointwise.sigmoid amplitude rise_time (x - t0)%R) <$> t)
  ∧ (∀ x y, (x <= y)%R →
       (pointwise.sigmoid amplitude rise_time (x - t0)
        <= pointwise.sigmoid amplitude rise_time (y - t0))%R)
  ∧ (∀ x, (0 <= pointwise.sigmoid amplitude rise_time (x - t0) <= amplitude)%R).
Proof.
  intros Ha Hr. split; [apply sigmoid_elementwise|]. split.
  - intros x y Hxy. rewrite !sigmoid_regions. repeat case_decide; try lra.
    + apply sigmoid_expr_range. done.
    + apply sigmoid_expr_mono; (done || lra).
  - intros x. rewrite sigmoid_regions. case_decide; [lra|].
    by apply sigmoid_expr_range.
Qed.

Lemma sigmoid_monotone_bounded_witness :
  bolo.sigmoid [59990; 60010]%R 60000 1 5
  = Some ((λ x, pointwise.sigmoid 1 5 (x - 60000)%R) <$> [59990; 60010]%R).
Proof.
  apply (sigmoid_monotone_bounded [59990; 60010]%R 60000 1 5); lra.
Defined.

(** X4. For a non-negative amplitude and positive time scales, every element
    of [bazin] lies between 0 and the amplitude. *)
Theorem bazin_bounded (t : list R) (t0 amplitude rise_time fall_time : R) :
  (0 <= amplitude)%R → (0 < rise_time)%R → (0 < fall_time)%R →
  ∃ result,
    bolo.bazin t t0 amplitude rise_time fall_time = Some result
    ∧ length result = length t
    ∧ ∀ y, y ∈ result → (0 <= y <= amplitude)%R.
Proof.
  intros Ha Hr Hf. eexists. split; [apply bazin_elementwise|].
  split; [by rewrite length_fmap|].
  intros y [x [-> _]]%list_elem_of_fmap. rewrite bazin_regions.
  case_decide; [lra|]. by apply bazin_expr_range.
Qed.

Lemma bazin_bounded_witness :
  ∃ result,
    bolo.bazin [59990; 60010]%R 60000 1 5 30 = Some result
    ∧ length result = 2
    ∧ ∀ y, y ∈ result → (0 <= y <= 1)%R.
Proof. apply (bazin_bounded [59990; 60010]%R 60000 1 5 30); lra. Defined.

(** * The reference time against the maximum of the bolometric flux *)

Section peak.
#[local] Open Scope R_scope.

Lemma sigmoid_expr_at_0 (amplitude rise_time : R) :
  bolo.sigmoid_expr amplitude rise_time 0 = amplitude / 2.
Proof.
  unfold bolo.sigmoid_expr. replace (- 0 / rise_time) with 0 by (unfold Rdiv; ring).
  rewrite exp_0. replace (1 + 1) with 2 by lra. reflexivity.
Qed.

Lemma bazin_expr_at_0 (amplitude rise_time fall_time : R) :
  bolo.bazin_expr amplitude rise_time fall_time 0 = amplitude / 2.
Proof.
  unfold bolo.bazin_expr.
  replace (- 0 / rise_time) with 0 by (unfold Rdiv; ring).
  replace (0 / fall_time) with 0 by (unfold Rdiv; ring).
  rewrite exp_0. replace (1 + 1) with 2 by lra. reflexivity.
Qed.

Lemma half_lt_div (a d : R) : 0 < a → 0 < d < 2 → a / 2 < a / d.
Proof.
  intros Ha [Hd0 Hd2]. unfold Rdiv. apply Rmult_lt_compat_l; [done|].
  apply Rinv_lt_contravar; lra.
Qed.

Lemma div_le_half (a d : R) : 0 <= a → 2 <= d → a / d <= a / 2.
Proof.
  intros Ha Hd. unfold Rdiv. apply Rmult_le_compat_l; [done|].
  apply Rinv_le_contravar; lra.
Qed.

(** One rise time after the reference time the sigmoid is above its value at
    the reference time. *)
Lemma sigmoid_expr_after_reference (amplitude rise_time : R) :
  0 < amplitude → 0 < rise_time →
  amplitude / 2 < bolo.sigmoid_expr amplitude rise_time rise_time.
Proof.
  intros Ha Hr. unfold bolo.sigmoid_expr.
  replace (- rise_time / rise_time) with (- (1)) by (field; lra).
  apply half_lt_div; [done|]. pose proof (exp_pos (- (1))).
  assert (exp (- (1)) < exp 0) by (apply exp_increasing; lra).
  rewrite exp_0 in *. lra.
Qed.

(** [exp] below the reciprocals of its two tangent bounds. *)
Lemma exp_neg_lt_inv (u : R) : 0 < u → exp (- u) < / (1 + u).
Proof.
  intros Hu. rewrite exp_Ropp. apply Rinv_lt_contravar.
  - pose proof (exp_pos u). nra.
  - apply exp_ineq1. lra.
Qed.

Lemma exp_le_inv (v : R) : v < 1 → exp v <= / (1 - v).
Proof.
  intros Hv. replace v with (- - v) at 1 by ring. rewrite exp_Ropp.
  apply Rinv_le_contravar; [lra|]. pose proof (exp_ineq1_le (- v)). lra.
Qed.

(** With a fall time above the rise time, the Bazin function is above its
    value at the reference time a quarter of the difference later. *)
Lemma bazin_expr_after_reference (amplitude rise_time fall_time : R) :
  0 < amplitude → 0 < rise_time < fall_time →
  amplitude / 2
  < bolo.bazin_expr amplitude rise_time fall_time ((fall_time - rise_time) / 4).
Proof.
  intros Ha [Hr Hrf]. unfold bolo.bazin_expr.
  set (x := (fall_time - rise_time) / 4).
  assert (0 < x) as Hx by (unfold x; lra).
  set (u := x / rise_time). set (v := x / fall_time).
  assert (u * rise_time = x) as Hu by (unfold u; field; lra).
  assert (v * fall_time = x) as Hv by (unfold v; field; lra).
  assert (0 < u) as Hu0 by (apply Rdiv_lt_0_compat; lra).
  assert (0 < v) as Hv0 by (apply Rdiv_lt_0_compat; lra).
  assert (v < 1) as Hv1.
  { unfold v. apply Rmult_lt_reg_r with fall_time; [lra|].
    unfold Rdiv. rewrite Rmult_assoc, Rinv_l by lra. unfold x. lra. }
  replace (- x / rise_time) with (- u) by (unfold u; field; lra).
  fold v.
  pose proof (exp_neg_lt_inv u Hu0) as H1. pose proof (exp_le_inv v Hv1) as H2.
  pose proof (exp_pos (- u)). pose proof (exp_pos v).
  apply half_lt_div; [done|]. split; [lra|].
  assert (/ (1 + u) + / (1 - v) <= 2) as Hsum; [|lra].
  assert (2 * u * v <= u - v) as Huv.
  { apply Rmult_le_reg_r with (rise_time * fall_time); [nra|].
    replace (2 * u * v * (rise_time * fall_time))
      with (2 * (u * rise_time) * (v * fall_time)) by ring.
    replace ((u - v) * (rise_time * fall_time))
      with ((u * rise_time) * fall_time - (v * fall_time) * rise_time) by ring.
    rewrite Hu, Hv. unfold x. nra. }
  replace (/ (1 + u) + / (1 - v)) with ((2 + u - v) / ((1 + u) * (1 - v)))
    by (field; lra).
  apply div_le; [nra|]. nra.
Qed.

(** With equal rise and fall times the Bazin function is nowhere above its
    value at the reference time. *)
Lemma bazin_expr_symmetric_max (amplitude scale dt : R) :
  0 <= amplitude → 0 < scale →
  bolo.bazin_expr amplitude scale scale dt <= amplitude / 2.
Proof.
  intros Ha Hs. unfold bolo.bazin_expr.
  replace (- dt / scale) with (- (dt / scale)) by (field; lra).
  rewrite exp_Ropp. pose proof (exp_pos (dt / scale)) as He.
  set (e := exp (dt / scale)) in *. clearbody e.
  apply div_le_half; [done|].
  assert (0 < / e) as Hi by (by apply Rinv_0_lt_compat).
  assert ((e - 1) * (e - 1) * / e = e - 2 + / e) as Hsq by (field; lra).
  pose proof (Rle_0_sqr (e - 1)) as Hnn. unfold Rsqr in Hnn.
  assert (0 <= (e - 1) * (e - 1) * / e) by (apply Rmult_le_pos; [exact Hnn|lra]).
  replace (/ e + e) with (e - 2 + / e + 2) by ring. lra.
Qed.

End peak.

Section peak_time_and_flux.
Context (bolometric_dict : gmap string bolo.entry).
Context (self : general.RainbowGeneralFit) (params : list R).

(** [bol_func] is the function of the entry on the slice of the vector. *)
Lemma bol_func_slice (e : bolo.entry) (args : list R) (t : list R) :
  bolometric_dict !! general.bolometric self = Some e →
  mapM (λ i, params !! i) (general.all_bol_idx (general.p self)) = Some args →
  general.bol_func bolometric_dict self t params = bolo.func e t args.
Proof.
  intros He Hargs. unfold general.bol_func. rewrite He. cbn [mbind option_bind].
  by rewrite Hargs.
Qed.

(** X5. For a [sigmoid] fit with positive amplitude and rise time,
    [peak_time] gives the reference time, where the bolometric flux is half
    the amplitude, while one rise time later the flux is larger: the
    reported time is not the time of the maximum. *)
Theorem peak_time_not_sigmoid_maximum (i0 i1 i2 : nat) (t0 amplitude rise_time : R) :
  bolometric_dict !! general.bolometric self = Some bolo.sigmoid_entry →
  general.all_bol_idx (general.p self) = [i0; i1; i2] →
  general.attrs (general.p self) !! "reference_time"%string = Some i0 →
  params !! i0 = Some t0 → params !! i1 = Some amplitude →
  params !! i2 = Some rise_time →
  (0 < amplitude)%R → (0 < rise_time)%R →
  general.peak_time self params = Some t0
  ∧ ∃ later,
      general.bol_func bolometric_dict self [t0; (t0 + rise_time)%R] params
      = Some (array [(amplitude / 2)%R; later])
      ∧ (amplitude / 2 < later)%R.
Proof.
  intros He Hidx Href H0 H1 H2 Ha Hr. split.
  - unfold general.peak_time. by rewrite Href.
  - exists (bolo.sigmoid_expr amplitude rise_time rise_time). split.
    + rewrite (bol_func_slice bolo.sigmoid_entry [t0; amplitude; rise_time]); [|done|].
      * cbn [bolo.func bolo.sigmoid_entry]. rewrite sigmoid_elementwise.
        cbn [fmap option_fmap option_map list_fmap]. do 2 f_equal.
        rewrite !sigmoid_regions.
        replace (t0 - t0)%R with 0%R by ring.
        replace (t0 + rise_time - t0)%R with rise_time by ring.
        rewrite !decide_False by lra. by rewrite sigmoid_expr_at_0.
      * rewrite Hidx. cbn. by rewrite H0, H1, H2.
    + by apply sigmoid_expr_after_reference.
Qed.

(** X6. For a [bazin] fit with a positive amplitude and a fall time above
    the rise time, [peak_time] gives the reference time, where the flux is
    half the amplitude, while a quarter of the difference of the two time
    scales later the flux is larger. *)
Theorem peak_time_not_bazin_maximum (i0 i1 i2 i3 : nat)
    (t0 amplitude rise_time fall_time : R) :
  bolometric_dict !! general.bolometric self = Some bolo.bazin_entry →
  general.all_bol_idx (general.p self) = [i0; i1; i2; i3] →
  general.attrs (general.p self) !! "reference_time"%string = Some i0 →
  params !! i0 = Some t0 → params !! i1 = Some amplitude →
  params !! i2 = Some rise_time → params !! i3 = Some fall_time →
  (0 < amplitude)%R → (0 < rise_time < fall_time)%R →
  general.peak_time self params = Some t0
  ∧ ∃ later,
      general.bol_func bolometric_dict self
        [t0; (t0 + (fall_time - rise_time) / 4)%R] params
      = Some (array [(amplitude / 2)%R; later])
      ∧ (amplitude / 2 < later)%R.
Proof.
  intros He Hidx Href H0 H1 H2 H3 Ha Hrf. split.
  - unfold general.peak_time. by rewrite Href.
  - exists (bolo.bazin_expr amplitude rise_time fall_time ((fall_time - rise_time) / 4)).
    split.
    + rewrite (bol_func_slice bolo.bazin_entry [t0; amplitude; rise_time; fall_time]);
        [|done|].
      * cbn [bolo.func bolo.bazin_entry]. rewrite bazin_elementwise.
        cbn [fmap option_fmap option_map list_fmap]. do 2 f_equal.
        rewrite !bazin_regions.
        replace (t0 - t0)%R with 0%R by ring.
        replace (t0 + (fall_time - rise_time) / 4 - t0)%R
          with ((fall_time - rise_time) / 4)%R by ring.
        rewrite !decide_False by lra. by rewrite bazin_expr_at_0.
      * rewrite Hidx. cbn. by rewrite H0, H1, H2, H3.
    + by apply bazin_expr_after_reference.
Qed.

(** X7. For a [bazin] fit with a non-negative amplitude and equal rise and
    fall times, the flux at the time that [peak_time] gives, half the
    amplitude, is the largest that [bol_func] returns at any time. *)
Theorem peak_time_symmetric_bazin_maximum (i0 i1 i2 i3 : nat)
    (t0 amplitude scale : R) (t : list R) :
  bolometric_dict !! general.bolometric self = Some bolo.bazin_entry →
  general.all_bol_idx (general.p self) = [i0; i1; i2; i3] →
  general.attrs (general.p self) !! "reference_time"%string = Some i0 →
  params !! i0 = Some t0 → params !! i1 = Some amplitude →
  params !! i2 = Some scale → params !! i3 = Some scale →
  (0 <= amplitude)%R → (0 < scale)%R →
  general.peak_time self params = Some t0
  ∧ general.bol_func bolometric_dict self [t0] params
    = Some (array [(amplitude / 2)%R])
  ∧ ∃ flux,
      general.bol_func bolometric_dict self t params = Some (array flux)
      ∧ ∀ y, y ∈ flux → (y <= amplitude / 2)%R.
Proof.
  intros He Hidx Href H0 H1 H2 H3 Ha Hs.
  assert (mapM (λ i, params !! i) (general.all_bol_idx (general.p self))
          = Some [t0; amplitude; scale; scale]) as Hargs.
  { rewrite Hidx. cbn. by rewrite H0, H1, H2, H3. }
  split_and!.
  - unfold general.peak_time. by rewrite Href.
  - rewrite (bol_func_slice bolo.bazin_entry _ _ He Hargs).
    cbn [bolo.func bolo.bazin_entry]. rewrite bazin_elementwise.
    cbn [fmap option_fmap option_map list_fmap]. do 2 f_equal.
    rewrite bazin_regions. replace (t0 - t0)%R with 0%R by ring.
    rewrite decide_False by lra. by rewrite bazin_expr_at_0.
  - rewrite (bol_func_slice bolo.bazin_entry _ _ He Hargs).
    cbn [bolo.func bolo.bazin_entry]. rewrite bazin_elementwise.
    eexists. split; [reflexivity|].
    intros y [x [-> _]]%list_elem_of_fmap. rewrite bazin_regions.
    case_decide; [lra|]. by apply bazin_expr_symmetric_max.
Qed.

End peak_time_and_flux.

Lemma peak_time_not_sigmoid_maximum_witness :
  general.peak_time examples2.sigmoid_constant examples2.params_sigmoid_constant
  = Some 60000%R
  ∧ ∃ later,
      general.bol_func bolo.bolometric_dict examples2.sigmoid_constant
        [60000; 60000 + 5]%R examples2.params_sigmoid_constant
      = Some (array [(1 / 2)%R; later])
      ∧ (1 / 2 < later)%R.
Proof.
  apply (peak_time_not_sigmoid_maximum bolo.bolometric_dict
           examples2.sigmoid_constant examples2.params_sigmoid_constant
           0 1 2 60000 1 5); try reflexivity; lra.
Defined.

Lemma peak_time_not_bazin_maximum_witness :
  general.peak_time examples.bazin_logistic examples.params_bazin_logistic
  = Some 60000%R
  ∧ ∃ later,
      general.bol_func bolo.bolometric_dict examples.bazin_logistic
        [60000; 60000 + (30 - 5) / 4]%R examples.params_bazin_logistic
      = Some (array [(1 / 2)%R; later])
      ∧ (1 / 2 < later)%R.
Proof.
  apply (peak_time_not_bazin_maximum bolo.bolometric_dict
           examples.bazin_logistic examples.params_bazin_logistic
           0 1 2 3 60000 1 5 30); try reflexivity; lra.
Defined.

Lemma peak_time_symmetric_bazin_maximum_witness :
  general.peak_time examples.bazin_logistic [60000; 1; 5; 5; 5000; 15000; 4; 0; 0]%R
  = Some 60000%R
  ∧ general.bol_func bolo.bolometric_dict examples.bazin_logistic [60000]%R
      [60000; 1; 5; 5; 5000; 15000; 4; 0; 0]%R
    = Some (array [(1 / 2)%R])
  ∧ ∃ flux,
      general.bol_func bolo.bolometric_dict examples.bazin_logistic [59990; 60020]%R
        [60000; 1; 5; 5; 5000; 15000; 4; 0; 0]%R = Some (array flux)
      ∧ ∀ y, y ∈ flux → (y <= 1 / 2)%R.
Proof.
  apply (peak_time_symmetric_bazin_maximum bolo.bolometric_dict
           examples.bazin_logistic [60000; 1; 5; 5; 5000; 15000; 4; 0; 0]%R
           0 1 2 3 60000 1 5 [59990; 60020]%R); try reflexivity; lra.
Defined.

(** * Guesses and limits of the strategies *)

Section guesses_run.
#[local] Open Scope R_scope.
Context (baseline : bool) (t m : list R) (band : list string).
Context (t_amplitude A : R).
Context (Hpt : np.ptp t = Some t_amplitude).
Context (HA : (if baseline then np.ptp m else np.max m) = Some A).

(** The position of the largest flux, and the time there. *)
Lemma argmax_time :
  length t = length m →
  ∃ i t_i t_lo t_hi,
    np.argmax m = Some i ∧ t !! i = Some t_i
    ∧ np.min t = Some t_lo ∧ np.max t = Some t_hi
    ∧ t_amplitude = t_hi - t_lo ∧ t_lo <= t_i <= t_hi.
Proof.
  intros Hlen.
  destruct (amplitude_inv baseline m A HA) as [m_hi Hmax].
  destruct (ptp_inv t t_amplitude Hpt) as (t_hi & t_lo & Htmax & Htmin & -> & Hle).
  assert (∃ i, np.argmax m = Some i) as [i Hi].
  { unfold np.argmax. rewrite Hmax. eauto. }
  pose proof (argmax_lt m i Hi) as Hlt. rewrite <- Hlen in Hlt.
  apply lookup_lt_is_Some_2 in Hlt as [t_i Hti].
  assert (t_i ∈ t) as Hel by (apply list_elem_of_lookup; eauto).
  pose proof (max_ge t t_hi t_i Htmax Hel). pose proof (min_le t t_lo t_i Htmin Hel).
  exists i, t_i, t_lo, t_hi. split_and!; (done || lra).
Qed.

Lemma sigmoid_initial_guesses_run (i : nat) (t_i : R) :
  np.argmax m = Some i → t !! i = Some t_i →
  bolo.sigmoid_initial_guesses baseline t m band
  = Some (<["rise_time"%string := 1]> (<["amplitude"%string := A]>
          (<["reference_time"%string := t_i]> ∅))).
Proof.
  intros Hi Hti. unfold bolo.sigmoid_initial_guesses.
  rewrite HA, Hi. cbn [mbind option_bind]. by rewrite Hti.
Qed.

Lemma bazin_initial_guesses_run (i : nat) (t_i : R) :
  np.argmax m = Some i → t !! i = Some t_i →
  bolo.bazin_initial_guesses baseline t m band
  = Some (<["fall_time"%string := 0.1]> (<["rise_time"%string := 0.1]>
          (<["amplitude"%string := A]> (<["reference_time"%string := t_i]> ∅)))).
Proof.
  intros Hi Hti. unfold bolo.bazin_initial_guesses.
  rewrite HA, Hi. cbn [mbind option_bind]. by rewrite Hti.
Qed.

Lemma sigmoid_limits_run (t_lo t_hi : R) :
  np.min t = Some t_lo → np.max t = Some t_hi →
  bolo.sigmoid_limits baseline t m band
  = Some (<["rise_time"%string := (1e-4, 10 * t_amplitude)]>
         (<["amplitude"%string := (0, 10 * A)]>
         (<["reference_time"%string :=
              (t_lo - 10 * t_amplitude, t_hi + 10 * t_amplitude)]> ∅))).
Proof.
  intros Hlo Hhi. unfold bolo.sigmoid_limits. by rewrite Hpt, HA, Hlo, Hhi.
Qed.

Lemma bazin_limits_run (t_lo t_hi : R) :
  np.min t = Some t_lo → np.max t = Some t_hi →
  bolo.bazin_limits baseline t m band
  = Some (<["fall_time"%string := (1e-4, 10 * t_amplitude)]>
         (<["rise_time"%string := (1e-4, 10 * t_amplitude)]>
         (<["amplitude"%string := (0, 10 * A)]>
         (<["reference_time"%string :=
              (t_lo - 10 * t_amplitude, t_hi + 10 * t_amplitude)]> ∅)))).
Proof.
  intros Hlo Hhi. unfold bolo.bazin_limits. by rewrite Hpt, HA, Hlo, Hhi.
Qed.

Lemma logistic_limits_run :
  temp.logistic_limits t m band
  = Some (<["k_sig"%string := (1e-4, 10 * t_amplitude)]>
         (<["Tmax"%string := (1e2, 1e6)]> (<["Tmin"%string := (1e2, 1e6)]> ∅))).
Proof. unfold temp.logistic_limits. by rewrite Hpt. Qed.

End guesses_run.

Ltac cases_of_names H :=
  repeat (apply elem_of_cons in H as [->|H]); [..|by apply elem_of_nil in H].

Ltac solve_within :=
  unfold within_limits; eexists _, _, _;
  (split; [reflexivity|]); (split; [reflexivity|]); lra.

(** X9. For arrays [t] and [m] of the same length, with [np.ptp(t) >= 0.1]
    and a non-negative flux amplitude, the guess of [sigmoid] for each of its
    three parameters lies within its limits. *)
Theorem sigmoid_guess_within_limits
    (baseline : bool) (t m : list R) (band : list string) (t_amplitude A : R) :
  length t = length m →
  np.ptp t = Some t_amplitude → (0.1 <= t_amplitude)%R →
  (if baseline then np.ptp m else np.max m) = Some A → (0 <= A)%R →
  ∃ initial limits,
    bolo.sigmoid_initial_guesses baseline t m band = Some initial
    ∧ bolo.sigmoid_limits baseline t m band = Some limits
    ∧ ∀ name, name ∈ bolo.sigmoid_parameter_names → within_limits initial limits name.
Proof.
  intros Hlen Hpt Ht HA HApos.
  destruct (argmax_time baseline t m t_amplitude A Hpt HA Hlen)
    as (i & t_i & t_lo & t_hi & Hi & Hti & Hlo & Hhi & Hamp & Hin).
  eexists _, _.
  split; [by eapply sigmoid_initial_guesses_run|].
  split; [by eapply sigmoid_limits_run|].
  intros name Hname. unfold bolo.sigmoid_parameter_names in Hname.
  cases_of_names Hname; solve_within.
Qed.

Lemma sigmoid_guess_within_limits_witness :
  ∃ initial limits,
    bolo.sigmoid_initial_guesses false [1; 2]%R [1; 3]%R ["g"; "r"]%string = Some initial
    ∧ bolo.sigmoid_limits false [1; 2]%R [1; 3]%R ["g"; "r"]%string = Some limits
    ∧ ∀ name, name ∈ bolo.sigmoid_parameter_names → within_limits initial limits name.
Proof.
  apply (sigmoid_guess_within_limits false [1; 2]%R [1; 3]%R ["g"; "r"]%string
           (Rmax 1 2 - Rmin 1 2)%R (Rmax 1 3)).
  - reflexivity.
  - reflexivity.
  - rewrite Rmax_right, Rmin_left by lra. lra.
  - reflexivity.
  - rewrite Rmax_right by lra. lra.
Defined.

(** X10. On a light curve that spans less than 0.1 time units the guess 1
    of [sigmoid] for the rise time is above its upper limit [10 *
    np.ptp(t)]; on one that spans less than 0.01 the guesses 0.1 of [bazin]
    for the rise and the fall time are above theirs. *)
Theorem short_span_guess_outside_limits
    (baseline : bool) (t m : list R) (band : list string) (t_amplitude A : R) :
  length t = length m →
  np.ptp t = Some t_amplitude →
  (if baseline then np.ptp m else np.max m) = Some A →
  ((t_amplitude < 0.1)%R →
     ∃ initial limits,
       bolo.sigmoid_initial_guesses baseline t m band = Some initial
       ∧ bolo.sigmoid_limits baseline t m band = Some limits
       ∧ ¬ within_limits initial limits "rise_time")
  ∧ ((t_amplitude < 0.01)%R →
     ∃ initial limits,
       bolo.bazin_initial_guesses baseline t m band = Some initial
       ∧ bolo.bazin_limits baseline t m band = Some limits
       ∧ ¬ within_limits initial limits "rise_time"
       ∧ ¬ within_limits initial limits "fall_time").
Proof.
  intros Hlen Hpt HA.
  destruct (argmax_time baseline t m t_amplitude A Hpt HA Hlen)
    as (i & t_i & t_lo & t_hi & Hi & Hti & Hlo & Hhi & Hamp & Hin).
  split; intros Hshort; eexists _, _.
  - split; [by eapply sigmoid_initial_guesses_run|].
    split; [by eapply sigmoid_limits_run|].
    intros (v & low & high & Hv & Hl & Hb).
    change (Some 1%R = Some v) in Hv.
    change (Some (1e-4, 10 * t_amplitude)%R = Some (low, high)) in Hl.
    injection Hv as <-. injection Hl as <- <-. lra.
  - split; [by eapply bazin_initial_guesses_run|].
    split; [by eapply bazin_limits_run|].
    split; intros (v & low & high & Hv & Hl & Hb).
    + change (Some 0.1%R = Some v) in Hv.
      change (Some (1e-4, 10 * t_amplitude)%R = Some (low, high)) in Hl.
      injection Hv as <-. injection Hl as <- <-. lra.
    + change (Some 0.1%R = Some v) in Hv.
      change (Some (1e-4, 10 * t_amplitude)%R = Some (low, high)) in Hl.
      injection Hv as <-. injection Hl as <- <-. lra.
Qed.

Lemma short_span_guess_outside_limits_witness :
  (∃ initial limits,
     bolo.sigmoid_initial_guesses false [1; 1.005]%R [1; 3]%R ["g"; "r"]%string
     = Some initial
     ∧ bolo.sigmoid_limits false [1; 1.005]%R [1; 3]%R ["g"; "r"]%string = Some limits
     ∧ ¬ within_limits initial limits "rise_time")
  ∧ (∃ initial limits,
       bolo.bazin_initial_guesses false [1; 1.005]%R [1; 3]%R ["g"; "r"]%string
       = Some initial
       ∧ bolo.bazin_limits false [1; 1.005]%R [1; 3]%R ["g"; "r"]%string = Some limits
       ∧ ¬ within_limits initial limits "rise_time"
       ∧ ¬ within_limits initial limits "fall_time").
Proof.
  destruct (short_span_guess_outside_limits false [1; 1.005]%R [1; 3]%R
              ["g"; "r"]%string (Rmax 1 1.005 - Rmin 1 1.005)%R (Rmax 1 3)
              eq_refl eq_refl eq_refl) as [Hs Hb].
  assert (Rmax 1 1.005 - Rmin 1 1.005 < 0.01)%R as Hshort
    by (rewrite Rmax_right, Rmin_left by lra; lra).
  split; [apply Hs; lra | apply Hb; lra].
Defined.

(** X11. The intervals of [bazin_limits] and of [sigmoid_limits] are not
    empty when [np.ptp(t) >= 1e-5] and the flux amplitude is not negative. *)
Theorem bolometric_limits_ordered
    (baseline : bool) (t m : list R) (band : list string) (t_amplitude A : R) :
  np.ptp t = Some t_amplitude → (1e-5 <= t_amplitude)%R →
  (if baseline then np.ptp m else np.max m) = Some A → (0 <= A)%R →
  (∃ limits,
     bolo.bazin_limits baseline t m band = Some limits
     ∧ ∀ name, name ∈ bolo.bazin_parameter_names →
         ∃ low high, limits !! name = Some (low, high) ∧ (low <= high)%R)
  ∧ (∃ limits,
       bolo.sigmoid_limits baseline t m band = Some limits
       ∧ ∀ name, name ∈ bolo.sigmoid_parameter_names →
           ∃ low high, limits !! name = Some (low, high) ∧ (low <= high)%R).
Proof.
  intros Hpt Ht HA HApos.
  destruct (ptp_inv t t_amplitude Hpt) as (t_hi & t_lo & Hhi & Hlo & Hamp & Hle).
  split; eexists.
  - split; [by eapply bazin_limits_run|].
    intros name Hname. unfold bolo.bazin_parameter_names in Hname.
    cases_of_names Hname; eexists _, _; (split; [reflexivity|]); lra.
  - split; [by eapply sigmoid_limits_run|].
    intros name Hname. unfold bolo.sigmoid_parameter_names in Hname.
    cases_of_names Hname; eexists _, _; (split; [reflexivity|]); lra.
Qed.

Lemma bolometric_limits_ordered_witness :
  ∃ limits,
    bolo.bazin_limits false [1; 2]%R [1; 3]%R ["g"; "r"]%string = Some limits
    ∧ ∀ name, name ∈ bolo.bazin_parameter_names →
        ∃ low high, limits !! name = Some (low, high) ∧ (low <= high)%R.
Proof.
  refine (proj1 (bolometric_limits_ordered false [1; 2]%R [1; 3]%R ["g"; "r"]%string
                   (Rmax 1 2 - Rmin 1 2)%R (Rmax 1 3) eq_refl _ eq_refl _)).
  - rewrite Rmax_right, Rmin_left by lra. lra.
  - rewrite Rmax_right by lra. lra.
Defined.

(** X12. When all the times are the same, the limits still come out, but
    the interval of every time scale is [(1e-4, 0)], which no value
    satisfies, and the interval of the reference time is the one time. *)
Theorem equal_times_limits_empty
    (baseline : bool) (x : R) (n : nat) (m : list R) (band : list string) (A : R) :
  (if baseline then np.ptp m else np.max m) = Some A →
  ∃ limits_b limits_s limits_l,
    bolo.bazin_limits baseline (replicate (S n) x) m band = Some limits_b
    ∧ bolo.sigmoid_limits baseline (replicate (S n) x) m band = Some limits_s
    ∧ temp.logistic_limits (replicate (S n) x) m band = Some limits_l
    ∧ limits_b !! "rise_time"%string = Some (1e-4, 10 * (x - x))%R
    ∧ limits_b !! "fall_time"%string = Some (1e-4, 10 * (x - x))%R
    ∧ limits_s !! "rise_time"%string = Some (1e-4, 10 * (x - x))%R
    ∧ limits_l !! "k_sig"%string = Some (1e-4, 10 * (x - x))%R
    ∧ limits_b !! "reference_time"%string
      = Some (x - 10 * (x - x), x + 10 * (x - x))%R
    ∧ ∀ v : R, ¬ (1e-4 <= v <= 10 * (x - x))%R.
Proof.
  intros HA.
  assert (∀ k, foldl Rmax x (replicate k x) = x) as Hmax.
  { induction k as [|k IH]; [done|]. cbn [replicate foldl].
    by rewrite Rmax_left by lra. }
  assert (∀ k, foldl Rmin x (replicate k x) = x) as Hmin.
  { induction k as [|k IH]; [done|]. cbn [replicate foldl].
    by rewrite Rmin_left by lra. }
  assert (np.max (replicate (S n) x) = Some x) as Hhi.
  { cbn [replicate np.max]. by rewrite Hmax. }
  assert (np.min (replicate (S n) x) = Some x) as Hlo.
  { cbn [replicate np.min]. by rewrite Hmin. }
  assert (np.ptp (replicate (S n) x) = Some (x - x)%R) as Hpt.
  { unfold np.ptp. by rewrite Hhi, Hlo. }
  eexists _, _, _.
  split; [by eapply bazin_limits_run|].
  split; [by eapply sigmoid_limits_run|].
  split; [by eapply logistic_limits_run|].
  split_and!; try reflexivity.
  intros v. lra.
Qed.

Lemma equal_times_limits_empty_witness :
  ∃ limits_b limits_s limits_l,
    bolo.bazin_limits false (replicate 2 60000%R) [1; 3]%R ["g"; "r"]%string
    = Some limits_b
    ∧ bolo.sigmoid_limits false (replicate 2 60000%R) [1; 3]%R ["g"; "r"]%string
      = Some limits_s
    ∧ temp.logistic_limits (replicate 2 60000%R) [1; 3]%R ["g"; "r"]%string
      = Some limits_l
    ∧ limits_b !! "rise_time"%string = Some (1e-4, 10 * (60000 - 60000))%R
    ∧ limits_b !! "fall_time"%string = Some (1e-4, 10 * (60000 - 60000))%R
    ∧ limits_s !! "rise_time"%string = Some (1e-4, 10 * (60000 - 60000))%R
    ∧ limits_l !! "k_sig"%string = Some (1e-4, 10 * (60000 - 60000))%R
    ∧ limits_b !! "reference_time"%string
      = Some (60000 - 10 * (60000 - 60000), 60000 + 10 * (60000 - 60000))%R
    ∧ ∀ v : R, ¬ (1e-4 <= v <= 10 * (60000 - 60000))%R.
Proof.
  apply (equal_times_limits_empty false 60000 1 [1; 3]%R ["g"; "r"]%string (Rmax 1 3)).
  reflexivity.
Defined.

(** X13. The guesses of the temperature strategies against their limits:
    the guess of [constant] is within its limits on every input; the guesses
    of [logistic] for [Tmin] and [Tmax] are within theirs whenever the
    limits come out, the one for [k_sig] exactly when [np.ptp(t) >= 0.1].
    [logistic] gives no guess and no limits for its parameter
    [reference_time]. *)
Theorem temperature_guess_within_limits
    (t m : list R) (band : list string) (t_amplitude : R) :
  np.ptp t = Some t_amplitude →
  within_limits (temp.constant_initial_guesses t m band)
    (temp.constant_limits t m band) "T"
  ∧ ∃ limits,
      temp.logistic_limits t m band = Some limits
      ∧ within_limits (temp.logistic_initial_guesses t m band) limits "Tmin"
      ∧ within_limits (temp.logistic_initial_guesses t m band) limits "Tmax"
      ∧ (within_limits (temp.logistic_initial_guesses t m band) limits "k_sig"
         ↔ (0.1 <= t_amplitude)%R)
      ∧ temp.logistic_initial_guesses t m band !! "reference_time"%string = None
      ∧ limits !! "reference_time"%string = None.
Proof.
  intros Hpt. split; [solve_within|].
  eexists. split; [by eapply logistic_limits_run|].
  split_and!; [solve_within | solve_within | | reflexivity | reflexivity].
  split.
  - intros (v & low & high & Hv & Hl & Hb).
    change (Some 1%R = Some v) in Hv.
    change (Some (1e-4, 10 * t_amplitude)%R = Some (low, high)) in Hl.
    injection Hv as <-. injection Hl as <- <-. lra.
  - intros Hge. solve_within.
Qed.

Lemma temperature_guess_within_limits_witness :
  within_limits (temp.constant_initial_guesses [1; 2]%R [1; 3]%R ["g"; "r"]%string)
    (temp.constant_limits [1; 2]%R [1; 3]%R ["g"; "r"]%string) "T".
Proof.
  refine (proj1 (temperature_guess_within_limits [1; 2]%R [1; 3]%R ["g"; "r"]%string
                   (Rmax 1 2 - Rmin 1 2)%R eq_refl)).
Defined.

(** * Guesses and limits of a fit *)

(** The names under which a chain of insertions has a value. *)
Ltac dom_of_inserts :=
  rewrite <- elem_of_dom; repeat rewrite dom_insert_L; rewrite dom_empty_L;
  set_unfold; intuition (subst; first [done | auto]).

Ltac name_of_inserts H :=
  apply elem_of_dom in H;
  repeat rewrite dom_insert_L in H; rewrite dom_empty_L in H;
  set_unfold in H;
  repeat match goal with H' : _ ∨ _ |- _ => destruct H' as [H'|H'] end;
  subst; try done.

(** Merging keeps a guess within its limits when the second pair of
    dictionaries has its guesses and its limits under the same names. *)
Lemma dict_or_within_limits
    (initial_1 initial_2 : gmap string R) (limits_1 limits_2 : gmap string (R * R))
    (name : string) :
  (∀ n, is_Some (initial_2 !! n) ↔ is_Some (limits_2 !! n)) →
  (is_Some (initial_1 !! name) → within_limits initial_1 limits_1 name) →
  (is_Some (initial_2 !! name) → within_limits initial_2 limits_2 name) →
  is_Some (dict_or initial_1 initial_2 !! name) →
  within_limits (dict_or initial_1 initial_2) (dict_or limits_1 limits_2) name.
Proof.
  intros Hsame H1 H2. unfold within_limits.
  rewrite !dict_or_lookup. unfold second_wins.
  destruct (initial_2 !! name) as [v2|] eqn:Hv2.
  - intros _. destruct H2 as (v & low & high & Hv & Hl & Hb); [done|].
    assert (v = v2) as -> by congruence. exists v2, low, high. by rewrite Hl.
  - intros Hv1. destruct (limits_2 !! name) as [l2|] eqn:Hl2.
    + assert (is_Some (initial_2 !! name)) as [? Hc] by (apply Hsame; eauto).
      congruence.
    + destruct H1 as (v & low & high & Hv & Hl & Hb); [done|].
      by exists v, low, high.
Qed.

(** X14. For any two registered strategies: when the temperature strategy
    gives its guesses and its limits under the same names, and each
    strategy's guesses lie within its own limits, every guess of
    [_initial_guesses] lies within the limits that [_limits] gives for the
    same name. *)
Theorem merged_guesses_within_merged_limits
    (bolometric_dict : gmap string bolo.entry) (temperature_dict : gmap string temp.entry)
    (self : general.RainbowGeneralFit) (b : bolo.entry) (te : temp.entry)
    (t m : list R) (band : list string)
    (initial_bolo initial_temp : gmap string R)
    (limits_bolo limits_temp : gmap string (R * R)) :
  bolometric_dict !! general.bolometric self = Some b →
  temperature_dict !! general.temperature self = Some te →
  bolo.initial_guesses b (general.with_baseline self) t m band = Some initial_bolo →
  temp.initial_guesses te t m band = Some initial_temp →
  bolo.limits b (general.with_baseline self) t m band = Some limits_bolo →
  temp.limits te t m band = Some limits_temp →
  (∀ n, is_Some (initial_temp !! n) ↔ is_Some (limits_temp !! n)) →
  (∀ n, is_Some (initial_bolo !! n) → within_limits initial_bolo limits_bolo n) →
  (∀ n, is_Some (initial_temp !! n) → within_limits initial_temp limits_temp n) →
  ∃ initial limits,
    general._initial_guesses bolometric_dict temperature_dict self t m band = Some initial
    ∧ general._limits bolometric_dict temperature_dict self t m band = Some limits
    ∧ ∀ n, is_Some (initial !! n) → within_limits initial limits n.
Proof.
  intros Hb Hte Hib Hit Hlb Hlt Hsame H1 H2.
  exists (dict_or initial_bolo initial_temp), (dict_or limits_bolo limits_temp).
  split_and!.
  - unfold general._initial_guesses. rewrite Hb. cbn [mbind option_bind].
    rewrite Hib. cbn [mbind option_bind]. rewrite Hte. cbn [mbind option_bind].
    by rewrite Hit.
  - unfold general._limits. rewrite Hb. cbn [mbind option_bind].
    rewrite Hlb. cbn [mbind option_bind]. rewrite Hte. cbn [mbind option_bind].
    by rewrite Hlt.
  - intros n. apply dict_or_within_limits; auto.
Qed.

Lemma merged_guesses_within_merged_limits_witness :
  ∃ initial limits,
    general._initial_guesses bolo.bolometric_dict examples.temperature_dict_shifted
      examples.bazin_shifted [1; 2]%R [1; 3]%R ["g"; "r"]%string = Some initial
    ∧ general._limits bolo.bolometric_dict examples.temperature_dict_shifted
        examples.bazin_shifted [1; 2]%R [1; 3]%R ["g"; "r"]%string = Some limits
    ∧ ∀ n, is_Some (initial !! n) → within_limits initial limits n.
Proof.
  apply (merged_guesses_within_merged_limits
           bolo.bolometric_dict examples.temperature_dict_shifted
           examples.bazin_shifted bolo.bazin_entry examples.shifted_entry
           [1; 2]%R [1; 3]%R ["g"; "r"]%string _ _ _ _
           eq_refl eq_refl
           (bazin_initial_guesses_two_points _) eq_refl
           (bazin_limits_two_points _) eq_refl).
  - intros n. unfold examples.shifted_initial_guesses, examples.shifted_limits.
    rewrite <- !elem_of_dom. by rewrite !dom_insert_L, !dom_empty_L.
  - intros n Hn. name_of_inserts Hn; solve_within.
  - intros n Hn. unfold examples.shifted_initial_guesses in Hn.
    name_of_inserts Hn; solve_within.
Defined.


Section shipped_guesses.
Context (baseline : bool) (t m : list R) (band : list string).
Context (t_amplitude A : R).
Context (Hlen : length t = length m).
Context (Hpt : np.ptp t = Some t_amplitude) (Ht : (0.1 <= t_amplitude)%R).
Context (HA : (if baseline then np.ptp m else np.max m) = Some A) (HApos : (0 <= A)%R).

Lemma bolometric_guesses_shipped (b : bolo.entry) :
  b = bolo.sigmoid_entry ∨ b = bolo.bazin_entry →
  ∃ initial_bolo limits_bolo,
    bolo.initial_guesses b baseline t m band = Some initial_bolo
    ∧ bolo.limits b baseline t m band = Some limits_bolo
    ∧ (∀ n, is_Some (initial_bolo !! n) ↔ n ∈ bolo.parameter_names b)
    ∧ (∀ n, is_Some (initial_bolo !! n) → within_limits initial_bolo limits_bolo n).
Proof.
  destruct (argmax_time baseline t m t_amplitude A Hpt HA Hlen)
    as (i & t_i & t_lo & t_hi & Hi & Hti & Hlo & Hhi & Hamp & Hin).
  intros [-> | ->]; eexists _, _.
  - split; [by eapply sigmoid_initial_guesses_run|].
    split; [by eapply sigmoid_limits_run|]. split.
    + intros n. cbn [bolo.parameter_names bolo.sigmoid_entry].
      unfold bolo.sigmoid_parameter_names. dom_of_inserts.
    + intros n Hn. name_of_inserts Hn; solve_within.
  - split; [by eapply bazin_initial_guesses_run|].
    split; [by eapply bazin_limits_run|]. split.
    + intros n. cbn [bolo.parameter_names bolo.bazin_entry].
      unfold bolo.bazin_parameter_names. dom_of_inserts.
    + intros n Hn. name_of_inserts Hn; solve_within.
Qed.

Lemma temperature_guesses_shipped (te : temp.entry) :
  te = temp.constant_entry ∨ te = temp.logistic_entry →
  ∃ initial_temp limits_temp,
    temp.initial_guesses te t m band = Some initial_temp
    ∧ temp.limits te t m band = Some limits_temp
    ∧ (∀ n, is_Some (initial_temp !! n)
            ↔ n ∈ temp.parameter_names te ∧ n ≠ "reference_time"%string)
    ∧ (∀ n, is_Some (initial_temp !! n) ↔ is_Some (limits_temp !! n))
    ∧ (∀ n, is_Some (initial_temp !! n) → within_limits initial_temp limits_temp n).
Proof.
  intros [-> | ->]; eexists _, _.
  - split; [reflexivity|]. split; [reflexivity|]. split_and!.
    + intros n. cbn [temp.parameter_names temp.constant_entry].
      unfold temp.constant_parameter_names, temp.constant_initial_guesses.
      dom_of_inserts.
    + intros n. unfold temp.constant_initial_guesses, temp.constant_limits.
      rewrite <- !elem_of_dom. by rewrite !dom_insert_L, !dom_empty_L.
    + intros n Hn. unfold temp.constant_initial_guesses in Hn.
      name_of_inserts Hn; solve_within.
  - split; [reflexivity|].
    split; [by eapply logistic_limits_run|]. split_and!.
    + intros n. cbn [temp.parameter_names temp.logistic_entry].
      unfold temp.logistic_parameter_names, temp.logistic_initial_guesses.
      dom_of_inserts.
    + intros n. unfold temp.logistic_initial_guesses.
      rewrite <- !elem_of_dom. by rewrite !dom_insert_L, !dom_empty_L.
    + intros n Hn. unfold temp.logistic_initial_guesses in Hn.
      name_of_inserts Hn; solve_within.
Qed.

End shipped_guesses.

Lemma names_union (b : bolo.entry) (te : temp.entry) (x : string) :
  x ∈ common_names b te
      ++ filter (λ i, i ∉ common_names b te) (bolo.parameter_names b)
      ++ filter (λ i, i ∉ common_names b te) (temp.parameter_names te)
  ↔ x ∈ bolo.parameter_names b ∨ x ∈ temp.parameter_names te.
Proof.
  unfold common_names. rewrite !elem_of_app, !list_elem_of_filter.
  destruct (decide (x ∈ bolo.parameter_names b)),
    (decide (x ∈ temp.parameter_names te)); tauto.
Qed.

(** X15. For each of the four fits that the sources can configure, on a
    light curve with [t] and [m] of the same length, [np.ptp(t) >= 0.1] and
    a non-negative flux amplitude: [_initial_guesses] gives a guess exactly
    for the common, the bolometric and the temperature parameters of the
    fit, and each guess lies within the limits that [_limits] gives. *)
Theorem shipped_fit_guesses_cover_parameters
    (self : general.RainbowGeneralFit) (t m : list R) (band : list string)
    (t_amplitude A : R) :
  general.bolometric self ∈ ["sigmoid"; "bazin"]%string →
  general.temperature self ∈ ["constant"; "logistic"]%string →
  length t = length m →
  np.ptp t = Some t_amplitude → (0.1 <= t_amplitude)%R →
  (if general.with_baseline self then np.ptp m else np.max m) = Some A → (0 <= A)%R →
  ∃ common bol tmp initial limits,
    general._common_parameter_names bolo.bolometric_dict temp.temperature_dict self
    = Some common
    ∧ general._bolometric_parameter_names bolo.bolometric_dict temp.temperature_dict self
      = Some bol
    ∧ general._temperature_parameter_names bolo.bolometric_dict temp.temperature_dict self
      = Some tmp
    ∧ general._initial_guesses bolo.bolometric_dict temp.temperature_dict self t m band
      = Some initial
    ∧ general._limits bolo.bolometric_dict temp.temperature_dict self t m band
      = Some limits
    ∧ (∀ n, is_Some (initial !! n) ↔ n ∈ common ++ bol ++ tmp)
    ∧ (∀ n, n ∈ common ++ bol ++ tmp → within_limits initial limits n).
Proof.
  intros Hbolo Htemp Hlen Hpt Ht HA HApos.
  assert (∃ b, bolo.bolometric_dict !! general.bolometric self = Some b
               ∧ (b = bolo.sigmoid_entry ∨ b = bolo.bazin_entry)) as (b & Hb & Hb').
  { apply elem_of_cons in Hbolo as [Hbolo|Hbolo];
      [|apply elem_of_cons in Hbolo as [Hbolo|Hbolo]; [|by apply elem_of_nil in Hbolo]];
      rewrite Hbolo; eauto. }
  assert (∃ te, temp.temperature_dict !! general.temperature self = Some te
                ∧ (te = temp.constant_entry ∨ te = temp.logistic_entry))
    as (te & Hte & Hte').
  { apply elem_of_cons in Htemp as [Htemp|Htemp];
      [|apply elem_of_cons in Htemp as [Htemp|Htemp]; [|by apply elem_of_nil in Htemp]];
      rewrite Htemp; eauto. }
  destruct (bolometric_guesses_shipped (general.with_baseline self) t m band
              t_amplitude A Hlen Hpt Ht HA HApos b Hb')
    as (initial_bolo & limits_bolo & Hib & Hlb & Hdom_b & Hin_b).
  destruct (temperature_guesses_shipped (general.with_baseline self) t m band
              t_amplitude A Hlen Hpt Ht HA HApos te Hte')
    as (initial_temp & limits_temp & Hit & Hlt & Hdom_t & Hsame & Hin_t).
  assert ("reference_time"%string ∈ bolo.parameter_names b) as Href.
  { destruct Hb' as [-> | ->]; apply elem_of_cons; by left. }
  assert (∀ n, is_Some (dict_or initial_bolo initial_temp !! n)
               ↔ n ∈ bolo.parameter_names b ∨ n ∈ temp.parameter_names te) as Hdom.
  { intros n. rewrite dict_or_lookup. unfold second_wins.
    specialize (Hdom_b n). specialize (Hdom_t n).
    destruct (initial_temp !! n) as [v|].
    - split; [intros _; right; by apply Hdom_t|done].
    - rewrite Hdom_b. split; [tauto|]. intros [Hn|Hn]; [done|].
      destruct (decide (n = "reference_time"%string)) as [->|Hne]; [done|].
      assert (is_Some (@None R)) as [? ?]; [apply Hdom_t|]; done. }
  eexists _, _, _, (dict_or initial_bolo initial_temp), (dict_or limits_bolo limits_temp).
  split; [by apply common_parameter_names_eq|].
  split; [by apply bolometric_parameter_names_eq|].
  split; [by apply temperature_parameter_names_eq|].
  split_and!.
  - unfold general._initial_guesses. rewrite Hb. cbn [mbind option_bind].
    rewrite Hib. cbn [mbind option_bind]. rewrite Hte. cbn [mbind option_bind].
    by rewrite Hit.
  - unfold general._limits. rewrite Hb. cbn [mbind option_bind].
    rewrite Hlb. cbn [mbind option_bind]. rewrite Hte. cbn [mbind option_bind].
    by rewrite Hlt.
  - intros n. by rewrite Hdom, names_union.
  - intros n Hn. apply dict_or_within_limits; auto.
    apply Hdom. by apply names_union.
Qed.

Lemma shipped_fit_guesses_cover_parameters_witness :
  ∃ common bol tmp initial limits,
    general._common_parameter_names bolo.bolometric_dict temp.temperature_dict
      examples.bazin_logistic = Some common
    ∧ general._bolometric_parameter_names bolo.bolometric_dict temp.temperature_dict
        examples.bazin_logistic = Some bol
    ∧ general._temperature_parameter_names bolo.bolometric_dict temp.temperature_dict
        examples.bazin_logistic = Some tmp
    ∧ general._initial_guesses bolo.bolometric_dict temp.temperature_dict
        examples.bazin_logistic [1; 2]%R [1; 3]%R ["g"; "r"]%string = Some initial
    ∧ general._limits bolo.bolometric_dict temp.temperature_dict
        examples.bazin_logistic [1; 2]%R [1; 3]%R ["g"; "r"]%string = Some limits
    ∧ (∀ n, is_Some (initial !! n) ↔ n ∈ common ++ bol ++ tmp)
    ∧ (∀ n, n ∈ common ++ bol ++ tmp → within_limits initial limits n).
Proof.
  apply (shipped_fit_guesses_cover_parameters examples.bazin_logistic
           [1; 2]%R [1; 3]%R ["g"; "r"]%string
           (Rmax 1 2 - Rmin 1 2)%R (Rmax 1 3 - Rmin 1 3)%R).
  - apply elem_of_cons. right. apply elem_of_cons. by left.
  - apply elem_of_cons. right. apply elem_of_cons. by left.
  - reflexivity.
  - reflexivity.
  - rewrite Rmax_right, Rmin_left by lra. lra.
  - reflexivity.
  - rewrite Rmax_right, Rmin_left by lra. lra.
Defined.

(** * Errors of the strategies and of the fit *)

(** X16. Without observations the bolometric guesses and limits raise
    (the maximum and the span of an empty array are undefined), and so do
    [logistic_limits], [_initial_guesses] and [_limits] for the bolometric
    strategies of the sources, while the three evaluation functions return
    the empty array. *)
Theorem empty_light_curve
    (temperature_dict : gmap string temp.entry) (self : general.RainbowGeneralFit)
    (baseline : bool) (t m : list R) (band : list string)
    (t0 amplitude rise_time fall_time Tmin Tmax k_sig : R) :
  general.bolometric self ∈ ["sigmoid"; "bazin"]%string →
  bolo.sigmoid_initial_guesses baseline t [] band = None
  ∧ bolo.bazin_initial_guesses baseline t [] band = None
  ∧ bolo.sigmoid_limits baseline [] m band = None
  ∧ bolo.bazin_limits baseline [] m band = None
  ∧ temp.logistic_limits [] m band = None
  ∧ general._initial_guesses bolo.bolometric_dict temperature_dict self t [] band = None
  ∧ general._limits bolo.bolometric_dict temperature_dict self [] m band = None
  ∧ bolo.sigmoid [] t0 amplitude rise_time = Some []
  ∧ bolo.bazin [] t0 amplitude rise_time fall_time = Some []
  ∧ temp.logistic [] t0 Tmin Tmax k_sig = Some [].
Proof.
  intros Hbolo.
  assert (bolo.sigmoid_initial_guesses (general.with_baseline self) t [] band = None
          ∧ bolo.bazin_initial_guesses (general.with_baseline self) t [] band = None
          ∧ bolo.sigmoid_limits (general.with_baseline self) [] m band = None
          ∧ bolo.bazin_limits (general.with_baseline self) [] m band = None)
    as (Hsg & Hbg & Hsl & Hbl).
  { unfold bolo.sigmoid_initial_guesses, bolo.bazin_initial_guesses,
      bolo.sigmoid_limits, bolo.bazin_limits.
    by destruct (general.with_baseline self). }
  split_and!; try reflexivity.
  - unfold bolo.sigmoid_initial_guesses. by destruct baseline.
  - unfold bolo.bazin_initial_guesses. by destruct baseline.
  - unfold general._initial_guesses.
    apply elem_of_cons in Hbolo as [Hbolo|Hbolo];
      [|apply elem_of_cons in Hbolo as [Hbolo|Hbolo]; [|by apply elem_of_nil in Hbolo]];
      rewrite Hbolo.
    + change (bolo.bolometric_dict !! "sigmoid"%string) with (Some bolo.sigmoid_entry).
      cbn [mbind option_bind bolo.initial_guesses bolo.sigmoid_entry]. by rewrite Hsg.
    + change (bolo.bolometric_dict !! "bazin"%string) with (Some bolo.bazin_entry).
      cbn [mbind option_bind bolo.initial_guesses bolo.bazin_entry]. by rewrite Hbg.
  - unfold general._limits.
    apply elem_of_cons in Hbolo as [Hbolo|Hbolo];
      [|apply elem_of_cons in Hbolo as [Hbolo|Hbolo]; [|by apply elem_of_nil in Hbolo]];
      rewrite Hbolo.
    + change (bolo.bolometric_dict !! "sigmoid"%string) with (Some bolo.sigmoid_entry).
      cbn [mbind option_bind bolo.limits bolo.sigmoid_entry]. by rewrite Hsl.
    + change (bolo.bolometric_dict !! "bazin"%string) with (Some bolo.bazin_entry).
      cbn [mbind option_bind bolo.limits bolo.bazin_entry]. by rewrite Hbl.
Qed.

Lemma empty_light_curve_witness :
  general._initial_guesses bolo.bolometric_dict temp.temperature_dict
    examples.bazin_logistic [] [] [] = None
  ∧ general._limits bolo.bolometric_dict temp.temperature_dict
      examples.bazin_logistic [] [] [] = None.
Proof.
  destruct (empty_light_curve temp.temperature_dict examples.bazin_logistic
              true [] [] [] 0 1 1 1 1 1 1)
    as (_ & _ & _ & _ & _ & Hg & Hl & _).
  - apply elem_of_cons. right. apply elem_of_cons. by left.
  - by split.
Defined.

(** X17. With a bolometric strategy that is not registered (a KeyError),
    the common and the bolometric names, the guesses, the limits and
    [bol_func] all raise; [_temperature_parameter_names] raises too as soon
    as the temperature strategy has a parameter, since its comprehension
    asks for the common names. *)
Theorem unknown_bolometric_strategy
    (bolometric_dict : gmap string bolo.entry) (temperature_dict : gmap string temp.entry)
    (self : general.RainbowGeneralFit) :
  bolometric_dict !! general.bolometric self = None →
  general._common_parameter_names bolometric_dict temperature_dict self = None
  ∧ general._bolometric_parameter_names bolometric_dict temperature_dict self = None
  ∧ (∀ t m band,
       general._initial_guesses bolometric_dict temperature_dict self t m band = None
       ∧ general._limits bolometric_dict temperature_dict self t m band = None)
  ∧ (∀ t params, general.bol_func bolometric_dict self t params = None)
  ∧ (∀ te, temperature_dict !! general.temperature self = Some te →
       (general._temperature_parameter_names bolometric_dict temperature_dict self = None
        ↔ temp.parameter_names te ≠ [])).
Proof.
  intros Hb.
  assert (general._common_parameter_names bolometric_dict temperature_dict self = None)
    as Hcommon by (unfold general._common_parameter_names; by rewrite Hb).
  split_and!.
  - done.
  - unfold general._bolometric_parameter_names. by rewrite Hb.
  - intros t m band. unfold general._initial_guesses, general._limits. by rewrite Hb.
  - intros t params. unfold general.bol_func. by rewrite Hb.
  - intros te Hte. unfold general._temperature_parameter_names. rewrite Hte.
    cbn [mbind option_bind]. destruct (temp.parameter_names te) as [|n names].
    + cbn. split; [done|]. by intros [].
    + cbn [general.comprehension_if]. rewrite Hcommon. cbn. by split.
Qed.

Lemma unknown_bolometric_strategy_witness :
  general._common_parameter_names bolo.bolometric_dict temp.temperature_dict
    examples2.unknown_bolometric = None
  ∧ general._bolometric_parameter_names bolo.bolometric_dict temp.temperature_dict
      examples2.unknown_bolometric = None.
Proof.
  destruct (unknown_bolometric_strategy bolo.bolometric_dict temp.temperature_dict
              examples2.unknown_bolometric eq_refl) as (H1 & H2 & _).
  by split.
Defined.

(** * The slices that the evaluation functions read *)

Lemma mapM_lookup_ext (params params' : list R) (idx : list nat) :
  (∀ i, i ∈ idx → params !! i = params' !! i) →
  mapM (λ i, params !! i) idx = mapM (λ i, params' !! i) idx.
Proof.
  induction idx as [|i idx IH]; intros Hagree; [done|].
  cbn. rewrite (Hagree i) by (apply elem_of_cons; by left).
  rewrite IH; [done|]. intros j Hj. apply Hagree, elem_of_cons. by right.
Qed.

(** X18. [bol_func] and [temp_func] read the parameter vector only at the
    indices of their slice: two vectors that agree there give the same
    result, the error included. [bol_func] does not depend on the
    temperature registry at all. *)
Theorem model_functions_read_their_slice
    (bolometric_dict : gmap string bolo.entry) (temperature_dict : gmap string temp.entry)
    (self : general.RainbowGeneralFit) (t params params' : list R) :
  ((∀ i, i ∈ general.all_bol_idx (general.p self) → params !! i = params' !! i) →
   general.bol_func bolometric_dict self t params
   = general.bol_func bolometric_dict self t params')
  ∧ ((∀ i, i ∈ general.all_temp_idx (general.p self) → params !! i = params' !! i) →
     general.temp_func temperature_dict self t params
     = general.temp_func temperature_dict self t params').
Proof.
  split; intros Hagree.
  - unfold general.bol_func. by rewrite (mapM_lookup_ext params params').
  - unfold general.temp_func. by rewrite (mapM_lookup_ext params params').
Qed.

Lemma model_functions_read_their_slice_witness :
  general.bol_func bolo.bolometric_dict examples.bazin_logistic [59990; 60010]%R
    examples.params_bazin_logistic
  = general.bol_func bolo.bolometric_dict examples.bazin_logistic [59990; 60010]%R
      [60000; 1; 5; 30; 4000; 9000; 1; 7; 7]%R.
Proof.
  refine (proj1 (model_functions_read_their_slice bolo.bolometric_dict
                   temp.temperature_dict examples.bazin_logistic [59990; 60010]%R
                   examples.params_bazin_logistic
                   [60000; 1; 5; 30; 4000; 9000; 1; 7; 7]%R) _).
  intros i Hi. cbn in Hi.
  repeat (apply elem_of_cons in Hi as [->|Hi]; [reflexivity|]).
  by apply elem_of_nil in Hi.
Defined.

Lemma registered_bolometric (name : string) (b : bolo.entry) :
  bolo.bolometric_dict !! name = Some b →
  b = bolo.sigmoid_entry ∨ b = bolo.bazin_entry.
Proof.
  unfold bolo.bolometric_dict.
  intros [[_ <-]|[_ [[_ <-]|[_ H]]%lookup_insert_Some]]%lookup_insert_Some; auto.
  by rewrite lookup_empty in H.
Qed.

Lemma registered_temperature (name : string) (te : temp.entry) :
  temp.temperature_dict !! name = Some te →
  te = temp.constant_entry ∨ te = temp.logistic_entry.
Proof.
  unfold temp.temperature_dict.
  intros [[_ <-]|[_ [[_ <-]|[_ H]]%lookup_insert_Some]]%lookup_insert_Some; auto.
  by rewrite lookup_empty in H.
Qed.

(** X19. For every strategy registered in the sources, the evaluation
    function takes as many parameters as the strategy declares names: the
    call returns exactly when the slice has this length. *)
Theorem registered_strategy_arity
    (bolometric temperature : string) (b : bolo.entry) (te : temp.entry)
    (t args : list R) :
  bolo.bolometric_dict !! bolometric = Some b →
  temp.temperature_dict !! temperature = Some te →
  (is_Some (bolo.func b t args) ↔ length args = length (bolo.parameter_names b))
  ∧ (is_Some (temp.func te t args) ↔ length args = length (temp.parameter_names te)).
Proof.
  intros [-> | ->]%registered_bolometric [-> | ->]%registered_temperature;
    cbn [bolo.func bolo.sigmoid_entry bolo.bazin_entry bolo.parameter_names
         temp.func temp.constant_entry temp.logistic_entry temp.parameter_names
         bolo.sigmoid_parameter_names bolo.bazin_parameter_names
         temp.constant_parameter_names temp.logistic_parameter_names length];
    (split;
     [ destruct args as [|a0 [|a1 [|a2 [|a3 [|a4 args]]]]];
       try rewrite sigmoid_elementwise; try rewrite bazin_elementwise;
       cbn; (split; [intros [? ?]; (done || lia) | (done || lia || eauto)])
     | destruct args as [|a0 [|a1 [|a2 [|a3 [|a4 args]]]]];
       try rewrite logistic_elementwise;
       cbn; (split; [intros [? ?]; (done || lia) | (done || lia || eauto)]) ]).
Qed.

Lemma registered_strategy_arity_witness :
  (is_Some (bolo.func bolo.bazin_entry [60000]%R [60000; 1; 5; 30]%R) ↔ 4 = 4)
  ∧ (is_Some (temp.func temp.logistic_entry [60000]%R [60000; 1; 5; 30]%R) ↔ 4 = 4).
Proof.
  apply (registered_strategy_arity "bazin" "logistic" bolo.bazin_entry
           temp.logistic_entry [60000]%R [60000; 1; 5; 30]%R); reflexivity.
Defined.

(** * The number and the order of the fit parameters *)

Lemma filter_ext_elem {A} (P Q : A → Prop)
    `{!∀ x, Decision (P x), !∀ x, Decision (Q x)} (l : list A) :
  (∀ x, x ∈ l → P x ↔ Q x) → filter P l = filter Q l.
Proof.
  induction l as [|a l IH]; intros Hiff; [done|].
  assert (filter P l = filter Q l) as Hl.
  { apply IH. intros x Hx. apply Hiff, elem_of_cons. by right. }
  assert (P a ↔ Q a) as Ha by (apply Hiff, elem_of_cons; by left).
  destruct (decide (P a)).
  - rewrite !filter_cons_True by tauto. by rewrite Hl.
  - rewrite !filter_cons_False by tauto. done.
Qed.

(** X20. For strategies with duplicate-free name lists, the common names
    followed by the bolometric names are a rearrangement of the names of the
    bolometric strategy, the common names followed by the temperature names
    a rearrangement of those of the temperature strategy; the bolometric and
    the temperature names keep the order of their strategy. The fit
    therefore has as many parameters as the two strategies together, less
    the common ones. *)
Theorem parameter_names_count
    (bolometric_dict : gmap string bolo.entry) (temperature_dict : gmap string temp.entry)
    (self : general.RainbowGeneralFit) (b : bolo.entry) (te : temp.entry) :
  bolometric_dict !! general.bolometric self = Some b →
  temperature_dict !! general.temperature self = Some te →
  NoDup (bolo.parameter_names b) →
  NoDup (temp.parameter_names te) →
  ∃ common bol tmp : list string,
    general._common_parameter_names bolometric_dict temperature_dict self = Some common
    ∧ general._bolometric_parameter_names bolometric_dict temperature_dict self = Some bol
    ∧ general._temperature_parameter_names bolometric_dict temperature_dict self = Some tmp
    ∧ common ++ bol ≡ₚ bolo.parameter_names b
    ∧ common ++ tmp ≡ₚ temp.parameter_names te
    ∧ bol `sublist_of` bolo.parameter_names b
    ∧ tmp `sublist_of` temp.parameter_names te
    ∧ length (common ++ bol ++ tmp) + length common
      = length (bolo.parameter_names b) + length (temp.parameter_names te).
Proof.
  intros Hb Hte Hnb Hnt.
  eexists _, _, _.
  split; [by apply common_parameter_names_eq|].
  split; [by apply bolometric_parameter_names_eq|].
  split; [by apply temperature_parameter_names_eq|].
  unfold common_names.
  set (bn := bolo.parameter_names b) in *. set (tn := temp.parameter_names te) in *.
  set (common := filter (λ j, j ∈ tn) bn).
  assert (∀ x, x ∈ common ↔ x ∈ bn ∧ x ∈ tn) as Hcommon.
  { intros x. unfold common. rewrite list_elem_of_filter. tauto. }
  assert (common ++ filter (λ i, i ∉ common) bn ≡ₚ bn) as Hpb.
  { assert (filter (λ i, i ∉ common) bn = filter (λ i, ¬ i ∈ tn) bn) as ->.
    { apply filter_ext_elem. intros x Hx. rewrite Hcommon. tauto. }
    apply filter_app_complement. }
  assert (common ++ filter (λ i, i ∉ common) tn ≡ₚ tn) as Hpt.
  { assert (filter (λ i, i ∉ common) tn = filter (λ i, ¬ i ∈ bn) tn) as ->.
    { apply filter_ext_elem. intros x Hx. rewrite Hcommon. tauto. }
    assert (common ≡ₚ filter (λ i, i ∈ bn) tn) as ->.
    { apply NoDup_Permutation; [by apply NoDup_filter|by apply NoDup_filter|].
      intros x. rewrite Hcommon, list_elem_of_filter. tauto. }
    apply filter_app_complement. }
  split_and!; [done|done|apply sublist_filter|apply sublist_filter|].
  rewrite <- (Permutation_length Hpb), <- (Permutation_length Hpt).
  rewrite !length_app. lia.
Qed.

Lemma parameter_names_count_witness :
  ∃ common bol tmp : list string,
    general._common_parameter_names bolo.bolometric_dict temp.temperature_dict
      examples.bazin_logistic = Some common
    ∧ general._bolometric_parameter_names bolo.bolometric_dict temp.temperature_dict
        examples.bazin_logistic = Some bol
    ∧ general._temperature_parameter_names bolo.bolometric_dict temp.temperature_dict
        examples.bazin_logistic = Some tmp
    ∧ common ++ bol ≡ₚ bolo.bazin_parameter_names
    ∧ common ++ tmp ≡ₚ temp.logistic_parameter_names
    ∧ bol `sublist_of` bolo.bazin_parameter_names
    ∧ tmp `sublist_of` temp.logistic_parameter_names
    ∧ length (common ++ bol ++ tmp) + length common = 4 + 4.
Proof.
  apply (parameter_names_count bolo.bolometric_dict temp.temperature_dict
           examples.bazin_logistic bolo.bazin_entry temp.logistic_entry).
  - reflexivity.
  - reflexivity.
  - apply (bool_decide_unpack _). vm_compute. reflexivity.
  - apply (bool_decide_unpack _). vm_compute. reflexivity.
Defined.

(** * What [_unscale_parameters] computes, and when it raises *)

Section unscale_values.
Context (self : general.RainbowGeneralFit).

Lemma update_attr_run (name : string) (f : R → R) (q : list R) (i : nat) (x : R) :
  general.attrs (general.p self) !! name = Some i →
  q !! i = Some x →
  general.update_attr self name f q = Some (<[i := f x]> q).
Proof.
  intros Hi Hx. unfold general.update_attr, general.update_item. by rewrite Hi, Hx.
Qed.

(** An update through an attribute that points outside the vector raises. *)
Lemma update_attr_None (name : string) (f : R → R) (q : list R) (i : nat) :
  general.attrs (general.p self) !! name = Some i →
  length q ≤ i →
  general.update_attr self name f q = None.
Proof.
  intros Hi Hlen. unfold general.update_attr, general.update_item. rewrite Hi.
  by rewrite (lookup_ge_None_2 q i Hlen).
Qed.

Lemma update_attr_length (name : string) (f : R → R) (q q' : list R) :
  general.update_attr self name f q = Some q' → length q' = length q.
Proof. by intros [? _]%update_attr_frame. Qed.

Lemma update_attr_in_range (name : string) (f : R → R) (q q' : list R) (i : nat) :
  general.update_attr self name f q = Some q' →
  general.attrs (general.p self) !! name = Some i → i < length q.
Proof.
  intros Hq Hi. destruct (decide (i < length q)) as [|Hge]; [done|].
  rewrite (update_attr_None name f q i) in Hq; [done|done|lia].
Qed.

End unscale_values.

Ltac lookup_in_inserts :=
  repeat (rewrite list_lookup_insert_ne by congruence);
  first
    [ eassumption
    | rewrite list_lookup_insert_eq;
      [reflexivity | rewrite ?length_insert; eapply lookup_lt_Some; eassumption] ].

(** X21. On a registry where the five rescaled parameters have different
    indices in the vector, [_unscale_parameters] puts the reference time
    through [undo_shift_scale], the rise time, the fall time and [k_sig]
    through [undo_scale] of the time scaler, and the amplitude, multiplied
    by the average frequency, through [undo_scale] of the flux scaler. *)
Theorem unscale_parameters_values
    (self : general.RainbowGeneralFit) (params : list R)
    (t_scaler : Scaler.t) (m_scaler : MultiBandScaler.t)
    (i_ref i_rise i_fall i_k i_amp : nat) (v_ref v_rise v_fall v_k v_amp : R) :
  general.attrs (general.p self) !! "reference_time"%string = Some i_ref →
  general.attrs (general.p self) !! "rise_time"%string = Some i_rise →
  general.attrs (general.p self) !! "fall_time"%string = Some i_fall →
  general.attrs (general.p self) !! "k_sig"%string = Some i_k →
  general.attrs (general.p self) !! "amplitude"%string = Some i_amp →
  NoDup [i_ref; i_rise; i_fall; i_k; i_amp] →
  params !! i_ref = Some v_ref → params !! i_rise = Some v_rise →
  params !! i_fall = Some v_fall → params !! i_k = Some v_k →
  params !! i_amp = Some v_amp →
  ∃ params',
    general._unscale_parameters self params t_scaler m_scaler = Some params'
    ∧ params' !! i_ref = Some (Scaler.undo_shift_scale t_scaler v_ref)
    ∧ params' !! i_rise = Some (Scaler.undo_scale t_scaler v_rise)
    ∧ params' !! i_fall = Some (Scaler.undo_scale t_scaler v_fall)
    ∧ params' !! i_k = Some (Scaler.undo_scale t_scaler v_k)
    ∧ params' !! i_amp
      = Some (MultiBandScaler.undo_scale m_scaler (v_amp * general.average_nu self)%R).
Proof.
  intros Href Hrise Hfall Hk Hamp Hnd Vref Vrise Vfall Vk Vamp.
  assert (i_ref ≠ i_rise ∧ i_ref ≠ i_fall ∧ i_ref ≠ i_k ∧ i_ref ≠ i_amp
          ∧ i_rise ≠ i_fall ∧ i_rise ≠ i_k ∧ i_rise ≠ i_amp
          ∧ i_fall ≠ i_k ∧ i_fall ≠ i_amp ∧ i_k ≠ i_amp)
    as (? & ? & ? & ? & ? & ? & ? & ? & ? & ?).
  { repeat (apply NoDup_cons in Hnd as [? Hnd]). set_solver. }
  unfold general._unscale_parameters, general._denormalize_bolometric_flux.
  erewrite (update_attr_run self "amplitude"); [|done|done].
  cbn [mbind option_bind].
  erewrite (update_attr_run self "reference_time"); [|done|lookup_in_inserts].
  cbn [mbind option_bind].
  erewrite (update_attr_run self "rise_time"); [|done|lookup_in_inserts].
  cbn [mbind option_bind].
  erewrite (update_attr_run self "fall_time"); [|done|lookup_in_inserts].
  cbn [mbind option_bind].
  erewrite (update_attr_run self "k_sig"); [|done|lookup_in_inserts].
  cbn [mbind option_bind].
  erewrite (update_attr_run self "amplitude"); [|done|lookup_in_inserts].
  cbn [mbind option_bind].
  eexists. split; [reflexivity|].
  split_and!; lookup_in_inserts.
Qed.

Lemma unscale_parameters_values_witness :
  ∃ params',
    general._unscale_parameters examples.bazin_logistic
      [0.5; 1e-15; 0.0025; 0.015; 5000; 15000; 0.002; 0.5; 0.25]%R
      examples.t_scaler examples.m_scaler = Some params'
    ∧ params' !! 0 = Some (59000 + 2000 * 0.5)%R
    ∧ params' !! 2 = Some (2000 * 0.0025)%R
    ∧ params' !! 3 = Some (2000 * 0.015)%R
    ∧ params' !! 6 = Some (2000 * 0.002)%R
    ∧ params' !! 1 = Some (3 * (1e-15 * 5e14))%R.
Proof.
  apply (unscale_parameters_values examples.bazin_logistic
           [0.5; 1e-15; 0.0025; 0.015; 5000; 15000; 0.002; 0.5; 0.25]%R
           examples.t_scaler examples.m_scaler 0 2 3 6 1); try reflexivity.
  apply (bool_decide_unpack _). vm_compute. reflexivity.
Defined.

(** X22. [_unscale_parameters] returns exactly when every one of the five
    rescaled parameters that the registry has points into the vector;
    otherwise it raises an IndexError. *)
Theorem unscale_parameters_returns_iff
    (self : general.RainbowGeneralFit) (params : list R)
    (t_scaler : Scaler.t) (m_scaler : MultiBandScaler.t) :
  is_Some (general._unscale_parameters self params t_scaler m_scaler)
  ↔ ∀ name i, name ∈ scaled_names →
              general.attrs (general.p self) !! name = Some i → i < length params.
Proof.
  unfold general._unscale_parameters, general._denormalize_bolometric_flux. split.
  - intros [r Hr].
    apply bind_Some in Hr as (q1 & H1 & Hr). apply bind_Some in Hr as (q2 & H2 & Hr).
    apply bind_Some in Hr as (q3 & H3 & Hr). apply bind_Some in Hr as (q4 & H4 & Hr).
    apply bind_Some in Hr as (q5 & H5 & Hr). apply bind_Some in Hr as (q6 & H6 & Hr).
    pose proof (update_attr_length _ _ _ _ _ H1) as L1.
    pose proof (update_attr_length _ _ _ _ _ H2) as L2.
    pose proof (update_attr_length _ _ _ _ _ H3) as L3.
    pose proof (update_attr_length _ _ _ _ _ H4) as L4.
    intros name i Hname Hi. unfold scaled_names in Hname.
    repeat (apply elem_of_cons in Hname as [->|Hname]);
      [..|by apply elem_of_nil in Hname].
    + pose proof (update_attr_in_range _ _ _ _ _ _ H2 Hi). lia.
    + pose proof (update_attr_in_range _ _ _ _ _ _ H3 Hi). lia.
    + pose proof (update_attr_in_range _ _ _ _ _ _ H4 Hi). lia.
    + pose proof (update_attr_in_range _ _ _ _ _ _ H5 Hi). lia.
    + pose proof (update_attr_in_range _ _ _ _ _ _ H1 Hi). lia.
  - intros Hin.
    assert (∀ name f q, name ∈ scaled_names → length q = length params →
              ∃ q', general.update_attr self name f q = Some q'
                    ∧ length q' = length params) as Hstep.
    { intros name f q Hname Hlen.
      destruct (update_attr_is_Some self q name f) as [q' Hq'].
      { intros i Hi. rewrite Hlen. eauto. }
      exists q'. split; [done|]. apply update_attr_length in Hq'. congruence. }
    destruct (Hstep "amplitude"%string (λ x, x * general.average_nu self)%R params)
      as (q1 & -> & L1); [by repeat constructor|done|]. cbn [mbind option_bind].
    destruct (Hstep "reference_time"%string (Scaler.undo_shift_scale t_scaler) q1)
      as (q2 & -> & L2); [by repeat constructor|done|]. cbn [mbind option_bind].
    destruct (Hstep "rise_time"%string (Scaler.undo_scale t_scaler) q2)
      as (q3 & -> & L3); [by repeat constructor|done|]. cbn [mbind option_bind].
    destruct (Hstep "fall_time"%string (Scaler.undo_scale t_scaler) q3)
      as (q4 & -> & L4); [by repeat constructor|done|]. cbn [mbind option_bind].
    destruct (Hstep "k_sig"%string (Scaler.undo_scale t_scaler) q4)
      as (q5 & -> & L5); [by repeat constructor|done|]. cbn [mbind option_bind].
    destruct (Hstep "amplitude"%string (MultiBandScaler.undo_scale m_scaler) q5)
      as (q6 & -> & L6); [by repeat constructor|done|]. cbn [mbind option_bind].
    done.
Qed.

(** * The dictionary of the baseline guesses *)

Section baseline_keys.
Context (self : general.RainbowGeneralFit) (m : list R) (band : list string).

#[local] Abbreviation name := (general.baseline_parameter_name (general.p self)).

Lemma baseline_comprehension_dom (names : list string)
    (d guesses : gmap string (option R)) :
  general.baseline_comprehension self m band names d = Some guesses →
  ∀ n, is_Some (guesses !! n) ↔ is_Some (d !! n) ∨ ∃ b, b ∈ names ∧ n = name b.
Proof.
  revert d. induction names as [|b0 names IH]; intros d Hrun n.
  - injection Hrun as <-. split; [by left|].
    intros [?|(b & Hb & _)]; [done|by apply elem_of_nil in Hb].
  - cbn [general.baseline_comprehension] in Hrun.
    apply bind_Some in Hrun as (m_b & _ & Hrun).
    rewrite (IH _ Hrun n). rewrite lookup_insert_is_Some.
    split.
    + intros [[<-|[_ ?]]|(b & Hb & ->)].
      * right. exists b0. split; [apply elem_of_cons; by left|done].
      * by left.
      * right. exists b. split; [apply elem_of_cons; by right|done].
    + intros [?|(b & [->|Hb]%elem_of_cons & ->)].
      * destruct (decide (name b0 = n)); [left; by left|left; right; done].
      * left. by left.
      * right. eauto.
Qed.

Lemma baseline_comprehension_mismatch (b0 : string) (names : list string)
    (d : gmap string (option R)) :
  length band ≠ length m →
  general.baseline_comprehension self m band (b0 :: names) d = None.
Proof.
  intros Hlen. cbn [general.baseline_comprehension]. unfold np.getmask.
  rewrite decide_False; [done|]. unfold general.band_eq. by rewrite length_fmap.
Qed.

End baseline_keys.

(** X23. For a fit with baseline, [_baseline_initial_guesses] returns
    exactly when the fit has no band or the flux and the band arrays have
    the same length (otherwise the mask does not fit and numpy raises); the
    dictionary it returns has an entry exactly under the baseline parameter
    names of the bands of the fit. *)
Theorem baseline_guesses_keys
    (self : general.RainbowGeneralFit) (t m : list R) (band : list string) :
  general.with_baseline self = true →
  (is_Some (general._baseline_initial_guesses self t m band)
   ↔ general.bands_names self = [] ∨ length band = length m)
  ∧ ∀ guesses,
      general._baseline_initial_guesses self t m band = Some guesses →
      ∀ n, is_Some (guesses !! n)
           ↔ ∃ b, b ∈ general.bands_names self
                  ∧ n = general.baseline_parameter_name (general.p self) b.
Proof.
  intros _. unfold general._baseline_initial_guesses. split.
  - split.
    + intros Hsome. destruct (general.bands_names self) as [|b0 names]; [by left|].
      right. destruct (decide (length band = length m)) as [|Hne]; [done|].
      rewrite baseline_comprehension_mismatch in Hsome by done.
      by destruct Hsome.
    + intros [-> | Hlen]; [done|].
      destruct (baseline_comprehension_lookup self m band Hlen
                  (general.bands_names self) ∅) as (guesses & -> & _).
      done.
  - intros guesses Hrun n.
    rewrite (baseline_comprehension_dom self m band _ _ _ Hrun n).
    rewrite lookup_empty. split; [intros [[? ?]|?]; done|by right].
Qed.

Lemma baseline_guesses_keys_witness :
  (is_Some (general._baseline_initial_guesses examples.bazin_logistic
              [59990; 60000; 60010]%R [1; 5; 3]%R ["g"; "r"; "g"]%string)
   ↔ general.bands_names examples.bazin_logistic = [] ∨ 3 = 3)
  ∧ ∀ guesses,
      general._baseline_initial_guesses examples.bazin_logistic
        [59990; 60000; 60010]%R [1; 5; 3]%R ["g"; "r"; "g"]%string = Some guesses →
      ∀ n, is_Some (guesses !! n)
           ↔ ∃ b, b ∈ general.bands_names examples.bazin_logistic
                  ∧ n = general.baseline_parameter_name
                          (general.p examples.bazin_logistic) b.
Proof.
  apply (baseline_guesses_keys examples.bazin_logistic
           [59990; 60000; 60010]%R [1; 5; 3]%R ["g"; "r"; "g"]%string).
  reflexivity.
Defined.

Lemma select_unobserved (m : list R) (band : list string) (b : string) :
  b ∉ band → np.select m (general.band_eq band b) = [].
Proof.
  revert m. induction band as [|c band IH]; intros m Hnot; [by destruct m|].
  destruct m as [|x m]; [done|].
  cbn [general.band_eq fmap list_fmap np.select].
  rewrite bool_decide_eq_false_2.
  - apply IH. intros Hin. apply Hnot, elem_of_cons. by right.
  - intros ->. apply Hnot, elem_of_cons. by left.
Qed.

(** X24. A band of the fit without any observation gets the guess that
    [np.median] gives for an empty selection, NaN. *)
Theorem baseline_guess_of_unobserved_band
    (self : general.RainbowGeneralFit) (t m : list R) (band : list string) (b : string) :
  length band = length m →
  b ∈ general.bands_names self →
  b ∉ band →
  (∀ b', b' ∈ general.bands_names self →
         general.baseline_parameter_name (general.p self) b'
         = general.baseline_parameter_name (general.p self) b → b' = b) →
  ∃ guesses,
    general._baseline_initial_guesses self t m band = Some guesses
    ∧ guesses !! general.baseline_parameter_name (general.p self) b = Some None.
Proof.
  intros Hlen Hb Hnot Hinj. unfold general._baseline_initial_guesses.
  destruct (baseline_comprehension_lookup self m band Hlen (general.bands_names self) ∅)
    as (guesses & Hrun & Hlook).
  exists guesses. split; [done|].
  rewrite (Hlook b); [|by left|done]. f_equal.
  unfold baseline_guess. by rewrite select_unobserved.
Qed.

Lemma baseline_guess_of_unobserved_band_witness :
  ∃ guesses,
    general._baseline_initial_guesses examples.bazin_logistic
      [59990; 60000]%R [1; 5]%R ["g"; "g"]%string = Some guesses
    ∧ guesses !! "baseline_r"%string = Some None.
Proof.
  apply (baseline_guess_of_unobserved_band examples.bazin_logistic
           [59990; 60000]%R [1; 5]%R ["g"; "g"]%string "r"%string).
  - reflexivity.
  - apply elem_of_cons. right. apply elem_of_cons. by left.
  - intros Hin. repeat (apply elem_of_cons in Hin as [Hin|Hin]; [done|]).
    by apply elem_of_nil in Hin.
  - intros b' Hb' Hname.
    repeat (apply elem_of_cons in Hb' as [->|Hb']); try done.
    by apply elem_of_nil in Hb'.
Defined.

(** * Where the guesses come from *)

Section first_maximum.
#[local] Open Scope R_scope.

Lemma first_index_lookup (v : R) (a : list R) :
  v ∈ a → a !! np.first_index v a = Some v.
Proof.
  induction a as [|x a IH]; [by intros ?%elem_of_nil|].
  intros Hv. cbn [np.first_index]. destruct (decide (x = v)) as [->|Hne]; [done|].
  apply elem_of_cons in Hv as [->|Hv]; [done|]. by apply IH.
Qed.

Lemma first_index_first (v : R) (a : list R) (j : nat) :
  (j < np.first_index v a)%nat → a !! j ≠ Some v.
Proof.
  revert j. induction a as [|x a IH]; intros j; [cbn; lia|].
  cbn [np.first_index]. destruct (decide (x = v)) as [->|Hne]; [lia|].
  destruct j as [|j]; cbn.
  - intros _. congruence.
  - intros Hj. apply IH. lia.
Qed.

Lemma argmax_spec (m : list R) (i : nat) :
  np.argmax m = Some i →
  ∃ m_i, np.max m = Some m_i ∧ m !! i = Some m_i
         ∧ (∀ y, y ∈ m → y <= m_i)
         ∧ (∀ j m_j, (j < i)%nat → m !! j = Some m_j → m_j < m_i).
Proof.
  unfold np.argmax. destruct (np.max m) as [hi|] eqn:Hhi; [|done].
  intros [= <-]. exists hi. split; [done|].
  pose proof (max_elem m hi Hhi) as Hel.
  split; [by apply first_index_lookup|].
  split; [intros y Hy; by eapply max_ge|].
  intros j m_j Hj Hmj.
  assert (m_j <= hi) as Hle.
  { eapply max_ge; [done|]. apply list_elem_of_lookup. eauto. }
  destruct Hle as [Hlt|Heq]; [done|]. subst m_j.
  by apply first_index_first in Hj.
Qed.

End first_maximum.

(** X25. For a bolometric strategy registered in the sources, the guess of
    the reference time is the time of the first observation with the
    largest flux, and the guess of the amplitude is that largest flux, or
    the span of the fluxes when the fit has a baseline. *)
Theorem reference_time_guess_is_first_maximum
    (bolometric : string) (b : bolo.entry) (baseline : bool) (t m : list R)
    (band : list string) (initial : gmap string R) :
  bolo.bolometric_dict !! bolometric = Some b →
  bolo.initial_guesses b baseline t m band = Some initial →
  ∃ i t_i m_i,
    initial !! "reference_time"%string = Some t_i
    ∧ t !! i = Some t_i ∧ m !! i = Some m_i
    ∧ (∀ y, y ∈ m → (y <= m_i)%R)
    ∧ (∀ j m_j, j < i → m !! j = Some m_j → (m_j < m_i)%R)
    ∧ initial !! "amplitude"%string = (if baseline then np.ptp m else Some m_i).
Proof.
  intros Hb Hrun.
  assert (∃ A i t_i (rest : gmap string R → gmap string R),
            (if baseline then np.ptp m else np.max m) = Some A
            ∧ np.argmax m = Some i ∧ t !! i = Some t_i
            ∧ initial = rest (<["amplitude"%string := A]>
                              (<["reference_time"%string := t_i]> ∅))
            ∧ (∀ d, rest d !! "reference_time"%string = d !! "reference_time"%string)
            ∧ (∀ d, rest d !! "amplitude"%string = d !! "amplitude"%string))
    as (A & i & t_i & rest & HA & Hi & Hti & -> & Hr1 & Hr2).
  { apply registered_bolometric in Hb as [-> | ->];
      cbn [bolo.initial_guesses bolo.sigmoid_entry bolo.bazin_entry] in Hrun.
    - unfold bolo.sigmoid_initial_guesses in Hrun.
      apply bind_Some in Hrun as (A & HA & Hrun).
      apply bind_Some in Hrun as (i & Hi & Hrun).
      apply bind_Some in Hrun as (t_i & Hti & Hrun). injection Hrun as <-.
      exists A, i, t_i, (λ d, <["rise_time"%string := 1%R]> d).
      split_and!; try done; intros d; by rewrite lookup_insert_ne.
    - unfold bolo.bazin_initial_guesses in Hrun.
      apply bind_Some in Hrun as (A & HA & Hrun).
      apply bind_Some in Hrun as (i & Hi & Hrun).
      apply bind_Some in Hrun as (t_i & Hti & Hrun). injection Hrun as <-.
      exists A, i, t_i,
        (λ d, <["fall_time"%string := 0.1%R]> (<["rise_time"%string := 0.1%R]> d)).
      split_and!; try done; intros d; by rewrite !lookup_insert_ne. }
  destruct (argmax_spec m i Hi) as (m_i & Hmax & Hmi & Hle & Hfirst).
  exists i, t_i, m_i. split_and!; try done.
  rewrite Hr2. change (Some A = (if baseline then np.ptp m else Some m_i)).
    rewrite <- HA. destruct baseline; [done|]. by rewrite Hmax.
Qed.

Lemma reference_time_guess_is_first_maximum_witness :
  ∃ initial i t_i m_i,
    bolo.bazin_initial_guesses false [1; 2]%R [1; 3]%R ["g"; "r"]%string = Some initial
    ∧ initial !! "reference_time"%string = Some t_i
    ∧ [1; 2]%R !! i = Some t_i ∧ [1; 3]%R !! i = Some m_i
    ∧ initial !! "amplitude"%string = Some m_i.
Proof.
  destruct (reference_time_guess_is_first_maximum "bazin" bolo.bazin_entry false
              [1; 2]%R [1; 3]%R ["g"; "r"]%string _ eq_refl
              (bazin_initial_guesses_two_points _))
    as (i & t_i & m_i & Href & Hti & Hmi & _ & _ & Hamp).
  eexists _, i, t_i, m_i.
  split; [apply bazin_initial_guesses_two_points|]. by split_and!.
Defined.
